(** * Lab 10: image retrieval and visual question answering

    A model of the notebook [2425/L10_image_retrival_image_qa/Lab_10.ipynb].

    The notebook is glue code over three external libraries (transformers,
    PIL, torch).  The libraries are a parameter of the development (record
    [Library]); what is modelled is the code of the notebook itself: which
    names it binds in the kernel's globals, which library calls it makes,
    with which arguments and in which order, what it prints, and what
    happens when a library call raises.

    A cell is a computation in a monad of state (the globals and torch's
    gradient mode), exceptions and a trace of the calls made.  An [import]
    binds a name and is taken to succeed.  Tensor entries are real numbers
    that stand for torch's float32 values: [softmax] is the only tensor
    operation the notebook applies itself, and nothing is stated about the
    numbers it yields. *)

From Stdlib Require Import Reals ZArith.
From stdpp Require Import gmap strings list.

(** ** Python exceptions and results *)

Inductive exn :=
| NameError (name : string)          (* an unbound global name *)
| TypeError (msg : string)           (* a value used at the wrong type
                                        (AttributeError is not told apart) *)
| LibraryError (msg : string).       (* anything raised inside a library *)

Inductive result (A : Type) :=
| Ok (a : A)
| Raise (e : exn).
Arguments Ok {A} a.
Arguments Raise {A} e.

Definition raised {A} (r : result A) : option exn :=
  match r with Ok _ => None | Raise e => Some e end.

Definition is_ok {A} (r : result A) : bool :=
  match r with Ok _ => true | Raise _ => false end.

(** ** Tensors and [softmax(dim=1)] *)

(** A two-dimensional float tensor: its rows, and the autograd node that
    produced it ([None] for a tensor that does not track gradients). *)
Record Tensor := { data : list (list R); grad_fn : option string }.

Definition rsum (l : list R) : R := fold_right Rplus 0%R l.

(** One row of [softmax]: [exp x_j / sum_k exp x_k]. *)
Definition softmax_row (row : list R) : list R :=
  map (fun x => (exp x / rsum (map exp row))%R) row.

(** [t.softmax(dim=1)] on a tensor of shape [images, texts], evaluated
    while the gradient mode is [grad]: every row is normalised on its
    own; the result tracks gradients when the mode is on and the argument
    does.  The entries are the softmax over the reals and stand for the
    float32 numbers torch computes: nothing below is stated about the
    numbers a cell prints, only about which tensor is printed and the
    autograd node it carries. *)
Definition softmax_dim1 (grad : bool) (t : Tensor) : Tensor :=
  {| data := map softmax_row (data t);
     grad_fn := if grad
                then match grad_fn t with
                     | Some _ => Some "SoftmaxBackward0"
                     | None => None
                     end
                else None |}.

(** What [print] writes to stdout. *)
Inductive printed :=
| PTensor (t : Tensor)
| PStr (s : string).

(** ** The external libraries *)

(** The pretrained-model library, PIL and the parts of torch that run a
    model.  Objects of the libraries are opaque; every call may raise. *)
Record Library := {
  Obj : Type;        (* what [from_pretrained] returns: a model or a processor *)
  Image : Type;      (* a PIL image *)
  Enc : Type;        (* what a processor returns (the model's keyword arguments) *)
  Output : Type;     (* what a forward pass returns *)
  (* [cls.from_pretrained(name)], [cls] given by its qualified name *)
  hub_from_pretrained : string -> string -> result Obj;
  (* [Image.open(path)] *)
  pil_open : string -> result Image;
  (* [img.convert(mode)] *)
  pil_convert : Image -> string -> result Image;
  (* [img.mode] *)
  pil_mode : Image -> string;
  (* [processor(text=texts, images=image, return_tensors=rt, padding=p)] *)
  call_text_images : Obj -> list string -> Image -> string -> bool -> result Enc;
  (* [processor(image, question, return_tensors=rt)] *)
  call_image_question : Obj -> Image -> string -> string -> result Enc;
  (* [model( **inputs)] under the given gradient mode *)
  forward : Obj -> Enc -> bool -> result Output;
  (* [outputs.logits_per_image] *)
  logits_per_image : Output -> Tensor;
  (* [model.generate( **inputs)] under the given gradient mode *)
  generate : Obj -> Enc -> bool -> result (list (list Z));
  (* [processor.decode(ids, skip_special_tokens=b)] *)
  decode : Obj -> list Z -> bool -> result string
}.

(** ** Steps and phases *)

(** A call without the library objects it carries: what was called, with
    the arguments the notebook's code chose. *)
Inductive step :=
| SLoad (cls name : string)
| SOpen (path : string)
| SConvert (mode : string)
| SProcessTextImages (texts : list string) (return_tensors : string) (padding : bool)
| SProcessImageQuestion (question : string) (return_tensors : string)
| SForward (grad : bool)
| SGenerate (grad : bool)
| SGetItem (i : nat)
| SSoftmax (dim : Z)
| SDecode (skip_special_tokens : bool)
| SPrintTensor
| SPrintStr.

(** The four phases of an inference cell: loading the model, preparing the
    input, running the model, and decoding or displaying the result. *)
Inductive phase := LoadModel | PreprocessInput | RunInference | PostProcess.

Definition phase_of (st : step) : phase :=
  match st with
  | SLoad _ _ => LoadModel
  | SOpen _ | SConvert _ | SProcessTextImages _ _ _ | SProcessImageQuestion _ _ =>
      PreprocessInput
  | SForward _ | SGenerate _ => RunInference
  | SGetItem _ | SSoftmax _ | SDecode _ | SPrintTensor | SPrintStr => PostProcess
  end.

Definition phase_eqb (a b : phase) : bool :=
  match a, b with
  | LoadModel, LoadModel | PreprocessInput, PreprocessInput
  | RunInference, RunInference | PostProcess, PostProcess => true
  | _, _ => false
  end.

(** The phases a run goes through, each named once per stretch. *)
Fixpoint squash (ps : list phase) : list phase :=
  match ps with
  | [] => []
  | a :: rest =>
      match rest with
      | b :: _ => if phase_eqb a b then squash rest else a :: squash rest
      | [] => [a]
      end
  end.

(** The boundary of the program: what a step exchanges with the outside. *)
Inductive interaction :=
| ReadsImageFile (path : string)
| FetchesWeights (cls name : string)
| PrintsTensor
| PrintsText.

Definition interaction_of (st : step) : option interaction :=
  match st with
  | SLoad cls name => Some (FetchesWeights cls name)
  | SOpen path => Some (ReadsImageFile path)
  | SPrintTensor => Some PrintsTensor
  | SPrintStr => Some PrintsText
  | _ => None
  end.

Definition boundary (l : list step) : list interaction := omap interaction_of l.

(** The checkpoints a list of steps loads, with the loading class. *)
Definition loads (l : list step) : list (string * string) :=
  omap (fun st => match st with SLoad cls name => Some (cls, name) | _ => None end) l.

(** [needle] occurs in [hay]. *)
Fixpoint occurs_in (needle hay : string) : bool :=
  String.prefix needle hay ||
  match hay with
  | EmptyString => false
  | String _ rest => occurs_in needle rest
  end.

(** A name of the LXMERT family: the model's name in prose, in a class
    name, or in a checkpoint name. *)
Definition names_lxmert (s : string) : bool :=
  occurs_in "LXMERT" s || occurs_in "Lxmert" s || occurs_in "lxmert" s.

(** The steps of the cells, as the code lists them. *)
Definition clip_load_steps : list step :=
  [ SLoad "transformers.CLIPModel" "openai/clip-vit-base-patch32";
    SLoad "transformers.CLIPProcessor" "openai/clip-vit-base-patch32" ].

Definition similarity_steps (texts : list string) (path : string) (grad : bool) : list step :=
  [ SOpen path; SProcessTextImages texts "pt" true; SForward grad; SSoftmax 1; SPrintTensor ].

Definition blip_qa_steps (image_path question : string) : list step :=
  [ SLoad "transformers.BlipProcessor" "Salesforce/blip-vqa-base";
    SLoad "transformers.BlipForQuestionAnswering" "Salesforce/blip-vqa-base";
    SOpen image_path; SConvert "RGB"; SProcessImageQuestion question "pt";
    SGenerate false; SGetItem 0; SDecode true ].

Section Kernel.
Context (L : Library).

(** ** Values, calls and the kernel state *)

(** The values the notebook binds to names. *)
Inductive value :=
| VStr (s : string)
| VStrs (l : list string)
| VImported (qualname : string)     (* an imported module or class *)
| VFunction (name : string)         (* a function defined with [def] *)
| VObj (o : Obj L)
| VImage (i : Image L)
| VEnc (e : Enc L)
| VOutput (o : Output L)
| VTensor (t : Tensor).

(** A call that leaves the notebook's own code, with its arguments. *)
Inductive call :=
| CFromPretrained (cls name : string)
| CImageOpen (path : string)
| CConvert (img : Image L) (mode : string)
| CProcessTextImages (proc : Obj L) (texts : list string) (img : Image L)
    (return_tensors : string) (padding : bool)
| CProcessImageQuestion (proc : Obj L) (img : Image L) (question : string)
    (return_tensors : string)
| CForward (model : Obj L) (inputs : Enc L) (grad : bool)
| CGenerate (model : Obj L) (inputs : Enc L) (grad : bool)
| CGetItem (ids : list (list Z)) (i : nat)
| CSoftmax (t : Tensor) (dim : Z)
| CDecode (proc : Obj L) (ids : list Z) (skip_special_tokens : bool)
| CPrint (p : printed).

(** A trace entry: the call, and the exception it raised if it did. *)
Definition entry : Type := call * option exn.

(** The state of the Python kernel: the globals of [__main__] and torch's
    gradient mode. *)
Record State := { globals : gmap string value; grad_enabled : bool }.

Definition set_globals (g : gmap string value) (s : State) : State :=
  {| globals := g; grad_enabled := grad_enabled s |}.

Definition set_grad_enabled (b : bool) (s : State) : State :=
  {| globals := globals s; grad_enabled := b |}.

(** A fresh kernel: only [__name__] is bound, gradients are on. *)
Definition fresh_kernel : State :=
  {| globals := {[ "__name__" := VStr "__main__" ]}; grad_enabled := true |}.

(** ** The monad of notebook code: state, exceptions and a trace *)

Definition M (A : Type) : Type := State -> result A * State * list entry.

Definition outcome {A} (x : result A * State * list entry) : result A := x.1.1.
Definition final {A} (x : result A * State * list entry) : State := x.1.2.
Definition trace {A} (x : result A * State * list entry) : list entry := x.2.

Definition ret {A} (a : A) : M A := fun s => (Ok a, s, []).

Definition raise {A} (e : exn) : M A := fun s => (Raise e, s, []).

Definition bind {A B} (m : M A) (k : A -> M B) : M B := fun s =>
  match m s with
  | (Ok a, s1, l1) =>
      match k a s1 with
      | (r, s2, l2) => (r, s2, l1 ++ l2)
      end
  | (Raise e, s1, l1) => (Raise e, s1, l1)
  end.

Declare Scope py_scope.
Delimit Scope py_scope with py.
Notation "x <- c1 ;; c2" := (bind c1 (fun x => c2))
  (at level 100, c1 at next level, right associativity) : py_scope.
Notation "c1 ;; c2" := (bind c1 (fun _ => c2))
  (at level 100, right associativity) : py_scope.
Local Open Scope py_scope.

(** What [builtins] binds, of the names the cells read: [__name__], the
    name of that module.  ([print] is in [builtins] too; the cells call it
    and never read it as a value, see [print] below.) *)
Definition builtin (name : string) : option value :=
  if String.eqb name "__name__" then Some (VStr "builtins") else None.

(** Reading a global name: the globals of the kernel first, then
    [builtins]; [NameError] when neither binds it. *)
Definition get_global (name : string) : M value := fun s =>
  match globals s !! name with
  | Some v => (Ok v, s, [])
  | None =>
      match builtin name with
      | Some v => (Ok v, s, [])
      | None => (Raise (NameError name), s, [])
      end
  end.

(** [name = v] at the top level of a cell. *)
Definition assign (name : string) (v : value) : M unit := fun s =>
  (Ok tt, set_globals (<[name := v]> (globals s)) s, []).

(** A call into a library: its result is whatever the library returns or
    raises, and the call is recorded in the trace. *)
Definition extern {A} (c : call) (r : result A) : M A := fun s =>
  (r, s, [(c, raised r)]).

Definition grad_mode : M bool := fun s => (Ok (grad_enabled s), s, []).

(** Reading a name at the type the code uses it. *)
Definition get_imported (name qualname : string) : M unit :=
  v <- get_global name;;
  match v with
  | VImported q =>
      if String.eqb q qualname then ret tt
      else raise (TypeError (name +:+ " is not " +:+ qualname))
  | _ => raise (TypeError (name +:+ " is not " +:+ qualname))
  end.

Definition get_class (name : string) : M string :=
  v <- get_global name;;
  match v with
  | VImported q => ret q
  | _ => raise (TypeError (name +:+ " has no from_pretrained"))
  end.

Definition get_str (name : string) : M string :=
  v <- get_global name;;
  match v with VStr x => ret x | _ => raise (TypeError (name +:+ " is not a str")) end.

Definition get_strs (name : string) : M (list string) :=
  v <- get_global name;;
  match v with VStrs x => ret x | _ => raise (TypeError (name +:+ " is not a list")) end.

Definition get_function (name : string) : M string :=
  v <- get_global name;;
  match v with VFunction f => ret f | _ => raise (TypeError (name +:+ " is not callable")) end.

Definition get_obj (name : string) : M (Obj L) :=
  v <- get_global name;;
  match v with VObj x => ret x | _ => raise (TypeError (name +:+ " is not callable")) end.

Definition get_image (name : string) : M (Image L) :=
  v <- get_global name;;
  match v with VImage x => ret x | _ => raise (TypeError (name +:+ " is not an image")) end.

Definition get_enc (name : string) : M (Enc L) :=
  v <- get_global name;;
  match v with VEnc x => ret x | _ => raise (TypeError (name +:+ " is not a mapping")) end.

Definition get_output (name : string) : M (Output L) :=
  v <- get_global name;;
  match v with VOutput x => ret x | _ => raise (TypeError (name +:+ " has no logits_per_image")) end.

Definition get_tensor (name : string) : M Tensor :=
  v <- get_global name;;
  match v with VTensor x => ret x | _ => raise (TypeError (name +:+ " has no softmax")) end.

(** ** Statements shared by the cells *)

(** [from module import n1, n2, ...] *)
Fixpoint import_from (module : string) (names : list string) : M unit :=
  match names with
  | [] => ret tt
  | n :: rest => assign n (VImported (module +:+ "." +:+ n));; import_from module rest
  end.

(** [import module as alias] ([import module] is [import module as module]). *)
Definition import_as (module alias : string) : M unit :=
  assign alias (VImported module).

(** [cls.from_pretrained(name)] *)
Definition from_pretrained (cls name : string) : M (Obj L) :=
  q <- get_class cls;;
  extern (CFromPretrained q name) (hub_from_pretrained L q name).

(** [Image.open(path)] *)
Definition Image_open (path : string) : M (Image L) :=
  get_imported "Image" "PIL.Image";;
  extern (CImageOpen path) (pil_open L path).

(** [img.convert(mode)] *)
Definition convert (img : Image L) (mode : string) : M (Image L) :=
  extern (CConvert img mode) (pil_convert L img mode).

(** [print(x)], with [print] the function of [builtins]: the kernels
    described are those that do not bind the name [print] themselves (see
    [print_is_builtin]). *)
Definition print (p : printed) : M unit := extern (CPrint p) (Ok tt).

(** [with torch.no_grad(): body]: the gradient mode is switched off for the
    body and put back to what it was on the way out, also when the body
    raises; the exception is not suppressed. *)
Definition no_grad_scope {A} (body : M A) : M A := fun s =>
  match body (set_grad_enabled false s) with
  | (r, s', l) => (r, set_grad_enabled (grad_enabled s) s', l)
  end.

Definition with_no_grad {A} (body : M A) : M A :=
  get_imported "torch" "torch";;
  no_grad_scope body.

(** [ids[i]] on the tensor of generated token ids. *)
Definition getitem (ids : list (list Z)) (i : nat) : M (list Z) :=
  extern (CGetItem ids i)
    (match ids !! i with
     | Some row => Ok row
     | None => Raise (LibraryError "IndexError: index out of bounds")
     end).

(** ** The cells of the notebook *)

Definition clip_checkpoint : string := "openai/clip-vit-base-patch32".
Definition blip_checkpoint : string := "Salesforce/blip-vqa-base".

(** Cell 2, the imports of the Setup section. *)
Definition imports_cell : M unit :=
  import_from "transformers" ["ViTForImageClassification"; "ViTImageProcessor"];;
  import_from "PIL" ["Image"];;
  import_as "requests" "requests";;
  import_as "matplotlib.pyplot" "plt";;
  import_as "numpy" "np";;
  import_from "sentence_transformers" ["SentenceTransformer"; "util"].

(** The statements the two similarity cells share, from the list of texts
    to [print]; the cells differ in the names they bind.  [processor],
    [model] and [Image] are read from the globals. *)
Definition similarity_block (n_texts n_image n_outputs n_logits : string)
    (texts : list string) (path : string) : M unit :=
  (* texts = [...] *)
  assign n_texts (VStrs texts);;
  (* image = Image.open(path) *)
  img <- Image_open path;;
  assign n_image (VImage img);;
  (* inputs = processor(text=texts, images=image, return_tensors="pt", padding=True) *)
  processor <- get_obj "processor";;
  txts <- get_strs n_texts;;
  image <- get_image n_image;;
  inputs <- extern (CProcessTextImages processor txts image "pt" true)
              (call_text_images L processor txts image "pt" true);;
  assign "inputs" (VEnc inputs);;
  (* outputs = model( **inputs) *)
  model <- get_obj "model";;
  kwargs <- get_enc "inputs";;
  g <- grad_mode;;
  outputs <- extern (CForward model kwargs g) (forward L model kwargs g);;
  assign n_outputs (VOutput outputs);;
  (* logits_per_image = outputs.logits_per_image *)
  out <- get_output n_outputs;;
  assign n_logits (VTensor (logits_per_image L out));;
  (* print(logits_per_image.softmax(dim=1)) *)
  t <- get_tensor n_logits;;
  g' <- grad_mode;;
  probs <- extern (CSoftmax t 1) (Ok (softmax_dim1 g' t));;
  print (PTensor probs).

(** Cell 11, the first similarity cell, for any list of texts and any
    image path in place of its two literals. *)
Definition clip_similarity_cell_on (texts : list string) (path : string) : M unit :=
  import_from "transformers" ["CLIPProcessor"; "CLIPModel"];;
  import_from "PIL" ["Image"];;
  model <- from_pretrained "CLIPModel" clip_checkpoint;;
  assign "model" (VObj model);;
  processor <- from_pretrained "CLIPProcessor" clip_checkpoint;;
  assign "processor" (VObj processor);;
  similarity_block "texts" "image" "outputs" "logits_per_image" texts path.

(** Cell 12, the second similarity cell, likewise. *)
Definition second_clip_similarity_cell_on (texts : list string) (path : string) : M unit :=
  similarity_block "texts2" "image2" "outputs2" "logits_per_image2" texts path.

Definition clip_similarity_cell : M unit :=
  clip_similarity_cell_on ["A photo of a cat"; "A photo of a dog"] "cat.jpg".

Definition second_clip_similarity_cell : M unit :=
  second_clip_similarity_cell_on ["A photo of a cat"; "A photo of a dog"] "cat_dog.jpg".

(** [perform_blip_qa(image_path, question)]; its variables are locals. *)
Definition perform_blip_qa (image_path question : string) : M string :=
  processor <- from_pretrained "BlipProcessor" blip_checkpoint;;
  model <- from_pretrained "BlipForQuestionAnswering" blip_checkpoint;;
  (* Load and preprocess the image *)
  opened <- Image_open image_path;;
  image <- convert opened "RGB";;
  inputs <- extern (CProcessImageQuestion processor image question "pt")
              (call_image_question L processor image question "pt");;
  (* Perform inference using generate() *)
  generated_ids <- with_no_grad
                     (g <- grad_mode;;
                      extern (CGenerate model inputs g) (generate L model inputs g));;
  (* Decode the generated answer *)
  first <- getitem generated_ids 0;;
  answer <- extern (CDecode processor first true) (decode L processor first true);;
  ret answer.

(** [__name__ == "__main__"] *)
Definition is_main (v : value) : bool :=
  match v with VStr n => String.eqb n "__main__" | _ => false end.

(** Cell 21: the imports, the definition of [perform_blip_qa] and the test
    of the pipeline under [if __name__ == "__main__":]. *)
Definition blip_vqa_cell : M unit :=
  import_as "torch" "torch";;
  import_from "transformers" ["BlipProcessor"; "BlipForQuestionAnswering"];;
  import_from "PIL" ["Image"];;
  assign "perform_blip_qa" (VFunction "perform_blip_qa");;
  name <- get_global "__name__";;
  if is_main name then
    assign "image_path" (VStr "cat.jpg");;
    assign "question" (VStr "What color is the cat?");;
    get_function "perform_blip_qa";;
    image_path <- get_str "image_path";;
    question <- get_str "question";;
    answer <- perform_blip_qa image_path question;;
    assign "answer" (VStr answer);;
    q <- get_str "question";;
    print (PStr ("Question: " +:+ q));;
    a <- get_str "answer";;
    print (PStr ("Answer: " +:+ a))
  else ret tt.

(** ** The notebook *)

Inductive cell :=
| Markdown (title : string)     (* heading or first line, without markup *)
| Code (body : M unit).

Definition notebook : list cell :=
  [ Markdown "TOC:";
    Markdown "Setup";
    Code imports_cell;
    Markdown "Image Retrieval using Multimodal Models";
    Markdown "Multimodal models leverage multiple data modalities";
    Markdown "Overview";
    Markdown "History of Image Retrieval";
    Markdown "CLIP Architecture";
    Markdown "Contrastive Learning: Concepts and Mathematical Foundation";
    Markdown "https://arxiv.org/pdf/2103.00020v1";
    Markdown "CLIP Arhitecture";
    Code clip_similarity_cell;
    Code second_clip_similarity_cell;
    Markdown "Augmenting RAG with Image Retrieval";
    Markdown "Multimodal Visual Question Answering (VQA)";
    Markdown "Overview";
    Markdown "History of VQA";
    Markdown "LXMERT Architecture";
    Markdown "LXMERT Demo Setup and Example: https://github.com/huggingface/transformers/blob/main/examples/research_projects/lxmert/demo.ipynb";
    Markdown "Steps for VQA";
    Markdown "https://github.com/huggingface/transformers/blob/main/examples/research_projects/lxmert/demo.ipynb";
    Code blip_vqa_cell;
    Markdown "Applications of Multimodal Models";
    Markdown "TL;DR";
    Markdown "CLIP: https://arxiv.org/pdf/2103.00020v1" ].

Definition code_cells (nb : list cell) : list (M unit) :=
  omap (fun c => match c with Code body => Some body | Markdown _ => None end) nb.

Definition markdown_titles (nb : list cell) : list string :=
  omap (fun c => match c with Markdown t => Some t | Code _ => None end) nb.

(** Running cells one after the other; the first exception stops the run. *)
Fixpoint run_cells (bodies : list (M unit)) : M unit :=
  match bodies with
  | [] => ret tt
  | body :: rest => body;; run_cells rest
  end.

Definition run_all : M unit := run_cells (code_cells notebook).

(** ** Reading a trace *)

Definition calls (l : list entry) : list call := map fst l.

(** What reached stdout. *)
Definition stdout (l : list entry) : list printed :=
  omap (fun en => match fst en with CPrint p => Some p | _ => None end) l.

(** The same run with the calls [l] made before it. *)
Definition prepend {A} (l : list entry) (x : result A * State * list entry) :
    result A * State * list entry :=
  match x with
  | (r, s, l') => (r, s, l ++ l')
  end.

(** No call of the trace raised. *)
Definition clean (l : list entry) : Prop := Forall (fun en => snd en = None) l.

Definition step_of (c : call) : step :=
  match c with
  | CFromPretrained cls name => SLoad cls name
  | CImageOpen path => SOpen path
  | CConvert _ mode => SConvert mode
  | CProcessTextImages _ texts _ rt padding => SProcessTextImages texts rt padding
  | CProcessImageQuestion _ _ question rt => SProcessImageQuestion question rt
  | CForward _ _ grad => SForward grad
  | CGenerate _ _ grad => SGenerate grad
  | CGetItem _ i => SGetItem i
  | CSoftmax _ dim => SSoftmax dim
  | CDecode _ _ skip => SDecode skip
  | CPrint (PTensor _) => SPrintTensor
  | CPrint (PStr _) => SPrintStr
  end.

Definition steps (l : list entry) : list step := map (fun en => step_of (fst en)) l.

Definition phases (l : list entry) : list phase := map phase_of (steps l).

(** [__name__ == "__main__"] holds in the kernel; a kernel that does not
    bind [__name__] leaves it to [builtins], where it is "builtins". *)
Definition runs_as_main (s : State) : bool :=
  match globals s !! "__name__" with
  | Some v => is_main v
  | None => false
  end.

(** The steps of cell 21. *)
Definition blip_cell_steps (main : bool) : list step :=
  if main
  then blip_qa_steps "cat.jpg" "What color is the cat?" ++ [SPrintStr; SPrintStr]
  else [].

(** The steps of the whole notebook, run from a fresh kernel. *)
Definition notebook_steps : list step :=
  clip_load_steps
  ++ similarity_steps ["A photo of a cat"; "A photo of a dog"] "cat.jpg" true
  ++ similarity_steps ["A photo of a cat"; "A photo of a dog"] "cat_dog.jpg" true
  ++ blip_cell_steps true.

(** The names cell 21 imports are bound to what it imported. *)
Definition blip_imports_bound (s : State) : Prop :=
  globals s !! "torch" = Some (VImported "torch") /\
  globals s !! "BlipProcessor" = Some (VImported "transformers.BlipProcessor") /\
  globals s !! "BlipForQuestionAnswering" =
    Some (VImported "transformers.BlipForQuestionAnswering") /\
  globals s !! "Image" = Some (VImported "PIL.Image").

(** The names the second similarity cell reads are bound as the first
    similarity cell leaves them. *)
Definition similarity_ready (s : State) (processor model : Obj L) : Prop :=
  globals s !! "Image" = Some (VImported "PIL.Image") /\
  globals s !! "processor" = Some (VObj processor) /\
  globals s !! "model" = Some (VObj model).

(** The trace of a similarity cell in which no call raised, from
    [Image.open] on. *)
Definition similarity_trace (texts : list string) (path : string) (grad : bool)
    (processor model : Obj L) (img : Image L) (enc : Enc L) (out : Output L) : list entry :=
  [ (CImageOpen path, None);
    (CProcessTextImages processor texts img "pt" true, None);
    (CForward model enc grad, None);
    (CSoftmax (logits_per_image L out) 1, None);
    (CPrint (PTensor (softmax_dim1 grad (logits_per_image L out))), None) ].

Definition clip_load_trace : list entry :=
  [ (CFromPretrained "transformers.CLIPModel" clip_checkpoint, None);
    (CFromPretrained "transformers.CLIPProcessor" clip_checkpoint, None) ].

(** The trace of a call of [perform_blip_qa] in which no call raised. *)
Definition blip_qa_trace (image_path question : string) (processor model : Obj L)
    (opened image : Image L) (inputs : Enc L) (generated_ids : list (list Z))
    (first : list Z) : list entry :=
  [ (CFromPretrained "transformers.BlipProcessor" blip_checkpoint, None);
    (CFromPretrained "transformers.BlipForQuestionAnswering" blip_checkpoint, None);
    (CImageOpen image_path, None);
    (CConvert opened "RGB", None);
    (CProcessImageQuestion processor image question "pt", None);
    (CGenerate model inputs false, None);
    (CGetItem generated_ids 0, None);
    (CDecode processor first true, None) ].

(** The kernel does not bind [print]: the cells print through the function
    of [builtins], as [print] above does. *)
Definition print_is_builtin (s : State) : Prop := globals s !! "print" = None.

(** The strings [decode] returned in a run. *)
Definition decoded_strings (l : list entry) : list string :=
  omap (fun en =>
          match en with
          | (CDecode processor ids skip, None) =>
              match decode L processor ids skip with
              | Ok a => Some a
              | Raise _ => None
              end
          | _ => None
          end) l.

(** Stdout as the spec has it: what is printed is a tensor or a decoded
    string; a line of text counts as one when a string decoded in the run
    occurs in it. *)
Definition tensor_or_decoded (decoded : list string) (p : printed) : bool :=
  match p with
  | PTensor _ => true
  | PStr line => existsb (fun a => occurs_in a line) decoded
  end.

(** What a call of a cell exchanges with the outside, in a run with trace
    [l]: it fetches the CLIP or the BLIP checkpoint, reads [cat.jpg] or
    [cat_dog.jpg], or prints a tensor, the question of cell 21 or the line
    with a string decoded in the run.  The other calls compute on values in
    memory. *)
Definition within_boundary (l : list entry) (c : call) : Prop :=
  match c with
  | CFromPretrained _ name => name = clip_checkpoint \/ name = blip_checkpoint
  | CImageOpen path => path = "cat.jpg" \/ path = "cat_dog.jpg"
  | CPrint (PTensor _) => True
  | CPrint (PStr line) =>
      line = "Question: What color is the cat?" \/
      exists a, In a (decoded_strings l) /\ line = "Answer: " +:+ a
  | CConvert _ _ | CProcessTextImages _ _ _ _ _ | CProcessImageQuestion _ _ _ _
  | CForward _ _ _ | CGenerate _ _ _ | CGetItem _ _ | CSoftmax _ _ | CDecode _ _ _ => True
  end.

(** What a call of [perform_blip_qa image_path question] exchanges with the
    outside: it fetches the BLIP checkpoint or reads the file at
    [image_path]; it prints nothing. *)
Definition within_boundary_of_qa (image_path : string) (c : call) : Prop :=
  match c with
  | CFromPretrained _ name => name = blip_checkpoint
  | CImageOpen path => path = image_path
  | CPrint _ => False
  | CConvert _ _ | CProcessTextImages _ _ _ _ _ | CProcessImageQuestion _ _ _ _
  | CForward _ _ _ | CGenerate _ _ _ | CGetItem _ _ | CSoftmax _ _ | CDecode _ _ _ => True
  end.

(** A property of a run, as the goal of a step-by-step execution. *)
Definition holds {A} (Q : result A * State * list entry -> Prop)
    (x : result A * State * list entry) : Prop := Q x.

(** The three cells that run a model. *)
Definition inference_cells : list (M unit) :=
  [ clip_similarity_cell; second_clip_similarity_cell; blip_vqa_cell ].

(** ** Properties of a piece of notebook code *)

(** A run in which an exception raised by a call is the outcome, and the
    raising call is the last one made: nothing was caught, replaced or
    retried. *)
Definition faithful {A} (x : result A * State * list entry) : Prop :=
  forall c e,
    In (c, Some e) (trace x) ->
    outcome x = Raise e /\
    exists before, trace x = before ++ [(c, Some e)] /\ clean before.

Definition propagates {A} (m : M A) : Prop := forall s, faithful (m s).

(** The code leaves the kernel state as it found it. *)
Definition stateless {A} (m : M A) : Prop :=
  forall s, final (m s) = s.

(** A run whose steps are an initial part of the listed ones, and all of
    them when it succeeded. *)
Definition follows {A} (expected : list step) (x : result A * State * list entry) : Prop :=
  steps (trace x) `prefix_of` expected /\
  (is_ok (outcome x) = true -> steps (trace x) = expected).

(** The steps of the code are the listed ones, in that order. *)
Definition performs {A} (m : M A) (expected : State -> list step) : Prop :=
  forall s, follows (expected s) (m s).

(** Two runs with the same outcome and the same calls. *)
Definition same_run {A} (x y : result A * State * list entry) : Prop :=
  outcome x = outcome y /\ trace x = trace y.

(** The outcome and trace of the code depend on the kernel state through
    the listed global names only. *)
Definition reads_only {A} (m : M A) (names : list string) : Prop :=
  forall s1 s2,
    Forall (fun n => globals s1 !! n = globals s2 !! n) names ->
    same_run (m s1) (m s2).

End Kernel.

Arguments VStr {L} s.
Arguments VStrs {L} l.
Arguments VImported {L} qualname.
Arguments VFunction {L} name.
Arguments VObj {L} o.
Arguments VImage {L} i.
Arguments VEnc {L} e.
Arguments VOutput {L} o.
Arguments VTensor {L} t.
Arguments CFromPretrained {L} cls name.
Arguments CImageOpen {L} path.
Arguments CConvert {L} img mode.
Arguments CProcessTextImages {L} proc texts img return_tensors padding.
Arguments CProcessImageQuestion {L} proc img question return_tensors.
Arguments CForward {L} model inputs grad.
Arguments CGenerate {L} model inputs grad.
Arguments CGetItem {L} ids i.
Arguments CSoftmax {L} t dim.
Arguments CDecode {L} proc ids skip_special_tokens.
Arguments CPrint {L} p.
Arguments globals {L} s.
Arguments grad_enabled {L} s.
Arguments set_globals {L} g s.
Arguments set_grad_enabled {L} b s.
Arguments outcome {L A} x.
Arguments final {L A} x.
Arguments trace {L A} x.
Arguments ret {L A} a.
Arguments raise {L A} e.
Arguments bind {L A B} m k.
Arguments builtin {L} name.
Arguments get_global {L} name.
Arguments assign {L} name v.
Arguments extern {L A} c r.
Arguments grad_mode {L}.
Arguments no_grad_scope {L A} body.
Arguments with_no_grad {L A} body.
Arguments prepend {L A} l x.
Arguments Code {L} body.
Arguments Markdown {L} title.
Arguments calls {L} l.
Arguments stdout {L} l.
Arguments clean {L} l.
Arguments step_of {L} c.
Arguments steps {L} l.
Arguments phases {L} l.
Arguments runs_as_main {L} s.
Arguments print_is_builtin {L} s.
Arguments decoded_strings {L} l.
Arguments within_boundary {L} l c.
Arguments within_boundary_of_qa {L} image_path c.
Arguments blip_imports_bound {L} s.
Arguments similarity_ready {L} s processor model.
Arguments similarity_trace {L} texts path grad processor model img enc out.
Arguments blip_qa_trace {L} image_path question processor model opened image inputs generated_ids first.
Arguments holds {L A} Q x.
Arguments is_main {L} v.
Arguments faithful {L A} x.
Arguments follows {L A} expected x.
Arguments propagates {L A} m.
Arguments stateless {L A} m.
Arguments performs {L A} m expected.
Arguments same_run {L A} x y.
Arguments reads_only {L A} m names.

(** ** A small library to run the notebook on

    Objects are the qualified names of their classes, an image is its mode,
    an encoding is the number of texts it holds.  Every image file is
    8-bit greyscale (mode L).  The forward pass gives every text the logit
    0 and tracks gradients when the mode is on. *)
Definition toy : Library :=
  {| Obj := string;
     Image := string;
     Enc := nat;
     Output := Tensor;
     hub_from_pretrained := fun cls _ => Ok cls;
     pil_open := fun _ => Ok "L";
     pil_convert := fun _ mode => Ok mode;
     pil_mode := fun img => img;
     call_text_images := fun _ texts _ _ _ => Ok (length texts);
     call_image_question := fun _ _ _ _ => Ok 1;
     forward := fun _ n grad =>
       Ok {| data := [repeat 0%R n];
             grad_fn := if grad then Some "MulBackward0" else None |};
     logits_per_image := fun out => out;
     generate := fun _ _ _ => Ok [[101; 4589; 1998; 2317; 102]%Z];
     decode := fun _ _ _ => Ok "orange and white" |}.

(** The same library on a machine where [cat.jpg] is missing. *)
Definition toy_without_cat : Library :=
  {| Obj := string;
     Image := string;
     Enc := nat;
     Output := Tensor;
     hub_from_pretrained := fun cls _ => Ok cls;
     pil_open := fun path =>
       if String.eqb path "cat.jpg"
       then Raise (LibraryError "FileNotFoundError: cat.jpg")
       else Ok "L";
     pil_convert := fun _ mode => Ok mode;
     pil_mode := fun img => img;
     call_text_images := fun _ texts _ _ _ => Ok (length texts);
     call_image_question := fun _ _ _ _ => Ok 1;
     forward := fun _ n grad =>
       Ok {| data := [repeat 0%R n];
             grad_fn := if grad then Some "MulBackward0" else None |};
     logits_per_image := fun out => out;
     generate := fun _ _ _ => Ok [[101; 4589; 1998; 2317; 102]%Z];
     decode := fun _ _ _ => Ok "orange and white" |}.

(** The kernel after the imports cell, and after the first similarity
    cell, on the small library. *)
Definition after_imports : State toy := final (imports_cell toy (fresh_kernel toy)).

Definition after_first_clip : State toy := final (clip_similarity_cell toy after_imports).

(** The kernel after the whole notebook. *)
Definition after_blip : State toy := final (run_all toy (fresh_kernel toy)).
(** ** More kernels and libraries to run the notebook on *)

(** A run that ended well, or with the exception its last call raised. *)
Definition fails_in_library {L A} (x : result A * State L * list (entry L)) : Prop :=
  match outcome x with
  | Ok _ => True
  | Raise e => exists c, last (trace x) = Some (c, Some e)
  end.

(** The kernel once the imports of cell 21 have run. *)
Definition blip_kernel (L : Library) : State L :=
  final (bind (import_as L "torch" "torch")
           (fun _ => bind (import_from L "transformers"
                             ["BlipProcessor"; "BlipForQuestionAnswering"])
                       (fun _ => import_from L "PIL" ["Image"]))
           (fresh_kernel L)).

(** A kernel in which the code is not run as the main module. *)
Definition module_kernel : State toy :=
  {| globals := {[ "__name__" := VStr "lab_10" ]}; grad_enabled := true |}.

(** The small library with a model that generates an empty batch. *)
Definition toy_empty_batch : Library :=
  {| Obj := string;
     Image := string;
     Enc := nat;
     Output := Tensor;
     hub_from_pretrained := fun cls _ => Ok cls;
     pil_open := fun _ => Ok "L";
     pil_convert := fun _ mode => Ok mode;
     pil_mode := fun img => img;
     call_text_images := fun _ texts _ _ _ => Ok (length texts);
     call_image_question := fun _ _ _ _ => Ok 1;
     forward := fun _ n grad =>
       Ok {| data := [repeat 0%R n];
             grad_fn := if grad then Some "MulBackward0" else None |};
     logits_per_image := fun out => out;
     generate := fun _ _ _ => Ok [];
     decode := fun _ _ _ => Ok "orange and white" |}.

(** The small library on a machine that cannot reach the model hub. *)
Definition toy_offline : Library :=
  {| Obj := string;
     Image := string;
     Enc := nat;
     Output := Tensor;
     hub_from_pretrained := fun _ _ =>
       Raise (LibraryError "OSError: cannot reach huggingface.co");
     pil_open := fun _ => Ok "L";
     pil_convert := fun _ mode => Ok mode;
     pil_mode := fun img => img;
     call_text_images := fun _ texts _ _ _ => Ok (length texts);
     call_image_question := fun _ _ _ _ => Ok 1;
     forward := fun _ n grad =>
       Ok {| data := [repeat 0%R n];
             grad_fn := if grad then Some "MulBackward0" else None |};
     logits_per_image := fun out => out;
     generate := fun _ _ _ => Ok [[101; 4589; 1998; 2317; 102]%Z];
     decode := fun _ _ _ => Ok "orange and white" |}.

(** ** Dependence on the kernel *)

(** Two kernels in the same gradient mode that bind the listed names
    alike. *)
Definition agree_on {L} (names : list string) (s1 s2 : State L) : Prop :=
  grad_enabled s1 = grad_enabled s2 /\
  List.Forall (fun n => globals s1 !! n = globals s2 !! n) names.

(** The code depends on the kernel through the gradient mode and the names
    [reads] only: run in two kernels that agree on them it makes the same
    calls and ends the same way.  When it ends well the two kernels still
    agree on what they agreed on, and on the names [writes]. *)
Definition depends_on {L A} (m : M L A) (reads writes : list string) : Prop :=
  forall names s1 s2,
    agree_on (reads ++ names) s1 s2 ->
    same_run (m s1) (m s2) /\
    (is_ok (outcome (m s1)) = true ->
     agree_on (writes ++ reads ++ names) (final (m s1)) (final (m s2))).

(** * Proofs *)

Section Properties.
Context (L : Library).
Implicit Types s : State L.

(** ** Running a program one statement at a time *)

Lemma bind_bind {A B C} (m : M L A) (f : A -> M L B) (g : B -> M L C) s :
  bind (bind m f) g s = bind m (fun x => bind (f x) g) s.
Proof.
  unfold bind. destruct (m s) as [[[a|e] s1] l1]; [|done].
  destruct (f a s1) as [[[b|e] s2] l2]; [|done].
  destruct (g b s2) as [[r s3] l3]. by rewrite app_assoc.
Qed.

Lemma bind_run {A B} (m : M L A) (k : A -> M L B) s :
  bind m k s =
  match m s with
  | (Ok a, s1, l1) => prepend l1 (k a s1)
  | (Raise e, s1, l1) => (Raise e, s1, l1)
  end.
Proof. unfold bind. by destruct (m s) as [[[a|e] s1] l1]. Qed.

Lemma prepend_nil {A} (x : result A * State L * list (entry L)) : prepend [] x = x.
Proof. by destruct x as [[r s] l]. Qed.

Lemma outcome_prepend {A} l (x : result A * State L * list (entry L)) :
  outcome (prepend l x) = outcome x.
Proof. by destruct x as [[r s] l']. Qed.

Lemma final_prepend {A} l (x : result A * State L * list (entry L)) :
  final (prepend l x) = final x.
Proof. by destruct x as [[r s] l']. Qed.

Lemma trace_prepend {A} l (x : result A * State L * list (entry L)) :
  trace (prepend l x) = l ++ trace x.
Proof. by destruct x as [[r s] l']. Qed.

Lemma restore_grad s :
  set_grad_enabled (grad_enabled s) (set_grad_enabled false s) = s.
Proof. by destruct s. Qed.

Lemma code_cells_notebook :
  code_cells L (notebook L) =
  [ imports_cell L; clip_similarity_cell L; second_clip_similarity_cell L;
    blip_vqa_cell L ].
Proof. reflexivity. Qed.

Section Steps.
Context {B : Type} (Q : result B * State L * list (entry L) -> Prop).

Lemma step_bind {A C} (m : M L A) (f : A -> M L C) (g : C -> M L B) s :
  holds Q (bind m (fun x => bind (f x) g) s) -> holds Q (bind (bind m f) g s).
Proof. by rewrite bind_bind. Qed.

Lemma step_ret {A} (a : A) (k : A -> M L B) s :
  holds Q (k a s) -> holds Q (bind (ret a) k s).
Proof. rewrite bind_run. unfold ret. by rewrite prepend_nil. Qed.

Lemma step_raise {A} e (k : A -> M L B) s :
  Q (Raise e, s, []) -> holds Q (bind (raise e) k s).
Proof. done. Qed.

Lemma step_assign n v (k : unit -> M L B) s s' :
  set_globals (<[n:=v]> (globals s)) s = s' ->
  holds Q (k tt s') -> holds Q (bind (assign n v) k s).
Proof. intros <-. rewrite bind_run. unfold assign. by rewrite prepend_nil. Qed.

Lemma step_get_global n (k : value L -> M L B) s o b :
  globals s !! n = o ->
  builtin n = b ->
  holds Q (match o with
           | Some v => k v s
           | None =>
               match b with
               | Some v => k v s
               | None => (Raise (NameError n), s, [])
               end
           end) ->
  holds Q (bind (get_global n) k s).
Proof.
  intros <- <-. rewrite bind_run. unfold get_global.
  destruct (globals s !! n); [by rewrite prepend_nil|].
  destruct (builtin n); [by rewrite prepend_nil|done].
Qed.

Lemma step_grad_mode (k : bool -> M L B) s g :
  grad_enabled s = g -> holds Q (k g s) -> holds Q (bind grad_mode k s).
Proof. intros <-. rewrite bind_run. unfold grad_mode. by rewrite prepend_nil. Qed.

Lemma step_extern {A} c (r : result A) (k : A -> M L B) s :
  (forall a, r = Ok a -> holds (fun y => Q (prepend [(c, None)] y)) (k a s)) ->
  (forall e, r = Raise e -> Q (Raise e, s, [(c, Some e)])) ->
  holds Q (bind (extern c r) k s).
Proof.
  intros Hok Herr. rewrite bind_run. unfold extern.
  destruct r as [a|e]; [by apply Hok | by apply Herr].
Qed.

Lemma step_extern_ok {A} c (r : result A) a (k : A -> M L B) s :
  r = Ok a ->
  holds (fun y => Q (prepend [(c, None)] y)) (k a s) ->
  holds Q (bind (extern c r) k s).
Proof. intros ->. by rewrite bind_run. Qed.

Lemma step_no_grad_scope {A} (body : M L A) (k : A -> M L B) s s0 :
  set_grad_enabled false s = s0 ->
  holds (fun x =>
           match x with
           | (Ok a, s', l) =>
               holds (fun y => Q (prepend l y))
                 (k a (set_grad_enabled (grad_enabled s) s'))
           | (Raise e, s', l) => Q (Raise e, set_grad_enabled (grad_enabled s) s', l)
           end) (body s0) ->
  holds Q (bind (no_grad_scope body) k s).
Proof.
  intros <-. unfold holds. rewrite bind_run. unfold no_grad_scope.
  by destruct (body _) as [[[a|e] s'] l].
Qed.

End Steps.

Lemma last_extern {A} c (r : result A)
    (Q : result A * State L * list (entry L) -> Prop) s :
  (forall a, r = Ok a -> Q (Ok a, s, [(c, None)])) ->
  (forall e, r = Raise e -> Q (Raise e, s, [(c, Some e)])) ->
  holds Q (extern c r s).
Proof. intros Hok Herr. unfold extern. destruct r; [by apply Hok | by apply Herr]. Qed.

Lemma last_extern_ok {A} c (r : result A) a
    (Q : result A * State L * list (entry L) -> Prop) s :
  r = Ok a -> Q (Ok a, s, [(c, None)]) -> holds Q (extern c r s).
Proof. by intros ->. Qed.

End Properties.

(** A lookup in globals the code has just bound, or that a hypothesis
    gives. *)
Ltac solve_lookup :=
  cbn [globals grad_enabled fresh_kernel];
  repeat first
    [ rewrite lookup_insert_eq
    | rewrite lookup_insert_ne by discriminate
    | rewrite lookup_singleton_eq
    | rewrite lookup_singleton_ne by discriminate ];
  first [ eassumption | reflexivity ].

Ltac solve_state :=
  unfold set_globals, set_grad_enabled, fresh_kernel;
  cbn [globals grad_enabled]; reflexivity.

(** A test is decided by a hypothesis or by evaluation; anything else is
    split into cases. *)
Ltac decide_or_destruct v :=
  first
    [ match goal with
      | H : v = _ |- _ => rewrite H
      end
    | let c := eval vm_compute in v in
      lazymatch c with
      | true => change v with true
      | false => change v with false
      end
    | destruct v eqn:? ].

(** One statement of the program under execution.  A lookup in the initial
    globals and the result of a library call are split into their cases,
    unless a hypothesis tells which case it is. *)
Ltac run1 :=
  lazymatch goal with
  | |- holds _ (bind ?m _ _) =>
      lazymatch m with
      | bind _ _ => apply step_bind
      | ret _ => apply step_ret
      | raise _ => apply step_raise
      | assign _ _ => eapply step_assign; [solve_state|]
      | get_global _ => eapply step_get_global; [solve_lookup|by cbv|]
      | grad_mode => eapply step_grad_mode; [solve_lookup|]
      | extern _ _ =>
          first [ eapply step_extern_ok; [first [eassumption | reflexivity]|]
                | apply step_extern; [intros ? ?|intros ? ?] ]
      | no_grad_scope _ => eapply step_no_grad_scope; [solve_state|]
      | match ?v with _ => _ end => decide_or_destruct v
      | if ?v then _ else _ => decide_or_destruct v
      end
  | |- holds _ (extern _ _ _) =>
      first [ eapply last_extern_ok; [first [eassumption | reflexivity]|]
            | apply last_extern; [intros ? ?|intros ? ?] ]
  | |- holds _ ((if ?x then _ else _) _) => decide_or_destruct x
  | |- holds _ (match ?x with _ => _ end) => decide_or_destruct x
  | |- holds _ (if ?x then _ else _) => decide_or_destruct x
  end; cbv beta iota.

Ltac unfold_cells :=
  unfold run_all; rewrite ?code_cells_notebook; cbn [run_cells];
  unfold blip_vqa_cell, clip_similarity_cell, second_clip_similarity_cell,
    clip_similarity_cell_on, second_clip_similarity_cell_on, similarity_block,
    imports_cell, perform_blip_qa, from_pretrained, Image_open, convert,
    with_no_grad, getitem, print, import_as, get_imported, get_class, get_str,
    get_strs, get_function, get_obj, get_image, get_enc, get_output, get_tensor;
  cbv beta iota delta [import_from String.append].

Ltac leaf :=
  unfold holds, set_globals, set_grad_enabled;
  cbn [prepend outcome final trace fst snd app ret raise assign extern
       globals grad_enabled raised].

(** Runs the program of a goal [holds Q (m s)] to its ends. *)
Ltac run := unfold_cells; repeat run1; leaf.

(** ** Exceptions are not caught *)

Section Propagation.
Context (L : Library).
Implicit Types s : State L.

Lemma clean_app (l1 l2 : list (entry L)) : clean l1 -> clean l2 -> clean (l1 ++ l2).
Proof. unfold clean. rewrite Forall_app. tauto. Qed.

Lemma faithful_ok_clean {A} (x : result A * State L * list (entry L)) a :
  faithful x -> outcome x = Ok a -> clean (trace x).
Proof.
  intros Hx Hok. apply Forall_forall. intros [c [e|]] Hin; [|done].
  destruct (Hx c e) as [Hr _].
  - by apply list_elem_of_In.
  - congruence.
Qed.

Lemma faithful_silent {A} (r : result A) s : faithful (r, s, @nil (entry L)).
Proof. intros c e []. Qed.

Lemma propagates_ret {A} (a : A) : propagates (L:=L) (ret a).
Proof. intros s. apply faithful_silent. Qed.

Lemma propagates_raise {A} e : propagates (L:=L) (A:=A) (raise e).
Proof. intros s. apply faithful_silent. Qed.

Lemma propagates_assign n v : propagates (L:=L) (assign n v).
Proof. intros s. apply faithful_silent. Qed.

Lemma propagates_get_global n : propagates (L:=L) (get_global n).
Proof.
  intros s. unfold get_global.
  destruct (_ !! _); [|destruct (builtin n)]; apply faithful_silent.
Qed.

Lemma propagates_grad_mode : propagates (L:=L) grad_mode.
Proof. intros s. apply faithful_silent. Qed.

Lemma propagates_extern {A} c (r : result A) : propagates (L:=L) (extern c r).
Proof.
  intros s c' e Hin. unfold extern in *. cbn in *.
  destruct Hin as [Heq|[]].
  injection Heq as -> Hr. destruct r as [a|e']; [done|].
  injection Hr as ->. split; [done|]. exists []. split; [done|]. constructor.
Qed.

Lemma propagates_bind {A B} (m : M L A) (k : A -> M L B) :
  propagates m -> (forall a, propagates (k a)) -> propagates (bind m k).
Proof.
  intros Hm Hk s. specialize (Hm s). rewrite bind_run. revert Hm.
  destruct (m s) as [[[a|e] s1] l1]; intros Hm.
  2: { intros c e' Hin. destruct (Hm c e' Hin) as (Hr & before & Ht & Hb).
       cbn in Hr. injection Hr as ->. split; [done|]. by exists before. }
  assert (clean l1) as Hl1 by (by eapply (faithful_ok_clean _ a Hm)).
  intros c e. rewrite outcome_prepend, trace_prepend.
  intros [Hin|Hin]%in_app_or.
  - unfold clean in Hl1. rewrite Forall_forall in Hl1.
    apply list_elem_of_In, Hl1 in Hin. done.
  - destruct (Hk a s1 c e Hin) as (Hr & before & Ht & Hb).
    split; [done|]. exists (l1 ++ before). rewrite Ht, app_assoc.
    split; [done|]. by apply clean_app.
Qed.

Lemma propagates_no_grad_scope {A} (body : M L A) :
  propagates body -> propagates (no_grad_scope body).
Proof.
  intros Hb s. specialize (Hb (set_grad_enabled false s)).
  unfold no_grad_scope. revert Hb. by destruct (body _) as [[r s'] l].
Qed.

Lemma propagates_import_from module names : propagates (import_from L module names).
Proof.
  induction names as [|n names IH]; cbn [import_from].
  - apply propagates_ret.
  - apply propagates_bind; [apply propagates_assign | done].
Qed.

Lemma propagates_run_cells (bodies : list (M L unit)) :
  Forall propagates bodies -> propagates (run_cells L bodies).
Proof.
  induction 1 as [|body bodies Hb _ IH]; cbn [run_cells].
  - apply propagates_ret.
  - by apply propagates_bind.
Qed.

(** ** Code that leaves the kernel state alone *)

Lemma stateless_ret {A} (a : A) : stateless (L:=L) (ret a).
Proof. done. Qed.

Lemma stateless_raise {A} e : stateless (L:=L) (A:=A) (raise e).
Proof. done. Qed.

Lemma stateless_get_global n : stateless (L:=L) (get_global n).
Proof. intros s. unfold get_global. destruct (_ !! _); [|destruct (builtin n)]; done. Qed.

Lemma stateless_grad_mode : stateless (L:=L) grad_mode.
Proof. done. Qed.

Lemma stateless_extern {A} c (r : result A) : stateless (L:=L) (extern c r).
Proof. done. Qed.

Lemma stateless_bind {A B} (m : M L A) (k : A -> M L B) :
  stateless m -> (forall a, stateless (k a)) -> stateless (bind m k).
Proof.
  intros Hm Hk s. specialize (Hm s). rewrite bind_run. revert Hm.
  destruct (m s) as [[[a|e] s1] l1]; cbn; intros ->; [|done].
  rewrite final_prepend. apply Hk.
Qed.

Lemma stateless_no_grad_scope {A} (body : M L A) :
  stateless body -> stateless (no_grad_scope body).
Proof.
  intros Hb s. specialize (Hb (set_grad_enabled false s)).
  unfold no_grad_scope. revert Hb. destruct (body _) as [[r s'] l]. cbn. intros ->.
  apply restore_grad.
Qed.

(** ** Code that reads a few names only *)

Lemma reads_only_const {A} (m : M L A) names :
  (forall s1 s2, same_run (m s1) (m s2)) -> reads_only m names.
Proof. intros H s1 s2 _. apply H. Qed.

Lemma reads_only_get_global n names : In n names -> reads_only (L:=L) (get_global n) names.
Proof.
  intros Hin s1 s2 Hagree. rewrite Forall_forall in Hagree.
  apply list_elem_of_In, Hagree in Hin. unfold get_global. rewrite Hin.
  destruct (globals s2 !! n); [|destruct (builtin n)]; done.
Qed.

Lemma reads_only_bind {A B} (m : M L A) (k : A -> M L B) names :
  reads_only m names -> stateless m -> (forall a, reads_only (k a) names) ->
  reads_only (bind m k) names.
Proof.
  intros Hm Hst Hk s1 s2 Hagree.
  destruct (Hm s1 s2 Hagree) as [Ho Ht].
  pose proof (Hst s1) as H1. pose proof (Hst s2) as H2.
  rewrite !bind_run. revert Ho Ht H1 H2.
  destruct (m s1) as [[r1 s1'] l1], (m s2) as [[r2 s2'] l2].
  cbn. intros <- <- -> ->.
  destruct r1 as [a|e]; [|done].
  destruct (Hk a s1 s2 Hagree) as [Ho Ht]. unfold same_run.
  by rewrite !outcome_prepend, !trace_prepend, Ho, Ht.
Qed.

Lemma reads_only_no_grad_scope {A} (body : bool -> M L A) names :
  (forall s1 s2, same_run (body false s1) (body false s2)) ->
  reads_only (no_grad_scope (bind grad_mode body)) names.
Proof.
  intros Hb s1 s2 _. unfold no_grad_scope. rewrite !bind_run. cbn.
  rewrite !prepend_nil.
  destruct (Hb (set_grad_enabled false s1) (set_grad_enabled false s2)) as [Ho Ht].
  revert Ho Ht.
  destruct (body false _) as [[r1 s1'] l1], (body false _) as [[r2 s2'] l2].
  done.
Qed.

End Propagation.

Create HintDb notebook.

#[export] Hint Resolve propagates_ret propagates_raise propagates_assign
  propagates_get_global propagates_grad_mode propagates_extern
  propagates_import_from
  stateless_ret stateless_raise stateless_get_global stateless_grad_mode
  stateless_extern : notebook.

(** Structural proof of [propagates], [stateless] or [reads_only] for
    straight-line code. *)
Ltac structural :=
  repeat first
    [ solve [auto with notebook]
    | apply propagates_bind; [|intros ?]
    | apply stateless_bind; [|intros ?]
    | apply reads_only_bind; [| |intros ?]
    | apply propagates_no_grad_scope
    | apply stateless_no_grad_scope
    | apply reads_only_get_global; cbn; tauto
    | apply reads_only_no_grad_scope; done
    | apply reads_only_const; done
    | match goal with
      | |- propagates (match ?v with _ => _ end) => destruct v
      | |- propagates (if ?v then _ else _) => destruct v
      | |- stateless (match ?v with _ => _ end) => destruct v
      | |- reads_only (match ?v with _ => _ end) _ => destruct v
      end ].

Section Cells.
Context (L : Library).
Implicit Types s : State L.

Lemma perform_blip_qa_propagates p q : propagates (perform_blip_qa L p q).
Proof.
  unfold perform_blip_qa, from_pretrained, Image_open, convert, with_no_grad,
    getitem, get_imported, get_class.
  structural.
Qed.

Lemma cells_propagate : Forall propagates (code_cells L (notebook L)).
Proof.
  pose proof perform_blip_qa_propagates as Hqa.
  rewrite code_cells_notebook.
  repeat first [ apply List.Forall_nil | apply List.Forall_cons ];
    unfold imports_cell, clip_similarity_cell, second_clip_similarity_cell,
      clip_similarity_cell_on, second_clip_similarity_cell_on, similarity_block,
      blip_vqa_cell, from_pretrained, Image_open, print, import_as,
      get_imported, get_class, get_str, get_strs, get_function, get_obj,
      get_image, get_enc, get_output, get_tensor;
    structural.
Qed.

Lemma perform_blip_qa_stateless p q : stateless (perform_blip_qa L p q).
Proof.
  unfold perform_blip_qa, from_pretrained, Image_open, convert, with_no_grad,
    getitem, get_imported, get_class.
  structural.
Qed.

Lemma perform_blip_qa_reads_only p q :
  reads_only (perform_blip_qa L p q)
    ["BlipProcessor"; "BlipForQuestionAnswering"; "Image"; "torch"].
Proof.
  unfold perform_blip_qa, from_pretrained, Image_open, convert, with_no_grad,
    getitem, get_imported, get_class.
  structural.
Qed.

End Cells.

(** ** The steps of each cell *)

Ltac follows_leaf :=
  unfold follows, steps, notebook_steps, blip_cell_steps, blip_qa_steps,
    similarity_steps, clip_load_steps;
  cbn [map step_of fst snd is_ok outcome trace app];
  split;
  [ eexists; reflexivity
  | let H := fresh in intros H; first [ discriminate H | reflexivity ] ].

Ltac as_goal_of_run :=
  lazymatch goal with
  | |- follows ?ks ?x => change (holds (follows ks) x)
  end.

(** The cases of a hypothesis [In c l] for a trace [l] that has been
    computed; the calls of another kind than [c] are dropped. *)
Ltac each_call Hin :=
  unfold calls in Hin; cbn [map fst] in Hin;
  repeat (destruct Hin as [Hin|Hin]; [try discriminate Hin|]);
  try (exfalso; exact Hin).

(** The same for a hypothesis [In st l] on a list of steps. *)
Ltac each_step Hin :=
  cbn in Hin;
  repeat (destruct Hin as [Hin|Hin]; [try discriminate Hin|]);
  try (exfalso; exact Hin).

(** States the goal as a property of the run [x]. *)
Ltac as_property_of x :=
  pattern x;
  lazymatch goal with
  | |- ?Q x => change (holds Q x)
  end.

Section Performs.
Context (L : Library).
Implicit Types s : State L.

Lemma imports_cell_performs : performs (imports_cell L) (fun _ => []).
Proof. intros s. as_goal_of_run. run. follows_leaf. Qed.

Lemma first_similarity_cell_performs texts path :
  performs (clip_similarity_cell_on L texts path)
    (fun s => clip_load_steps ++ similarity_steps texts path (grad_enabled s)).
Proof. intros s. as_goal_of_run. run; follows_leaf. Qed.

Lemma second_similarity_cell_performs texts path :
  performs (second_clip_similarity_cell_on L texts path)
    (fun s => similarity_steps texts path (grad_enabled s)).
Proof. intros s. as_goal_of_run. run; follows_leaf. Qed.

Lemma perform_blip_qa_follows p q s :
  blip_imports_bound s ->
  follows (blip_qa_steps p q) (perform_blip_qa L p q s).
Proof. intros (Ht & Hp & Hm & Hi). as_goal_of_run. run; follows_leaf. Qed.

Lemma blip_vqa_cell_performs :
  performs (blip_vqa_cell L) (fun s => blip_cell_steps (runs_as_main s)).
Proof.
  intros s. unfold runs_as_main. as_goal_of_run. run. all:
    repeat match goal with
      | H : globals _ !! _ = _ |- _ => rewrite H
      | H : is_main _ = _ |- _ => rewrite H
      end;
    follows_leaf.
Qed.

Lemma notebook_follows : follows notebook_steps (run_all L (fresh_kernel L)).
Proof. as_goal_of_run. run. all: follows_leaf. Qed.

(** ** Runs in which no call raises *)

Lemma first_similarity_cell_run texts path s processor model img enc out :
  hub_from_pretrained L "transformers.CLIPModel" clip_checkpoint = Ok model ->
  hub_from_pretrained L "transformers.CLIPProcessor" clip_checkpoint = Ok processor ->
  pil_open L path = Ok img ->
  call_text_images L processor texts img "pt" true = Ok enc ->
  forward L model enc (grad_enabled s) = Ok out ->
  let x := clip_similarity_cell_on L texts path s in
  outcome x = Ok tt /\
  trace x =
    clip_load_trace L ++
    similarity_trace texts path (grad_enabled s) processor model img enc out /\
  similarity_ready (final x) processor model /\
  grad_enabled (final x) = grad_enabled s.
Proof.
  intros Hmodel Hproc Himg Henc Hout x. subst x.
  as_property_of (clip_similarity_cell_on L texts path s).
  run. unfold similarity_ready. cbn [globals].
  repeat split; solve_lookup.
Qed.

Lemma second_similarity_cell_run texts path s processor model img enc out :
  similarity_ready s processor model ->
  pil_open L path = Ok img ->
  call_text_images L processor texts img "pt" true = Ok enc ->
  forward L model enc (grad_enabled s) = Ok out ->
  let x := second_clip_similarity_cell_on L texts path s in
  outcome x = Ok tt /\
  trace x = similarity_trace texts path (grad_enabled s) processor model img enc out.
Proof.
  intros (Hi & Hp & Hm) Himg Henc Hout x. subst x.
  as_property_of (second_clip_similarity_cell_on L texts path s).
  run. done.
Qed.

Lemma perform_blip_qa_run p q s processor model opened image inputs first rest answer :
  blip_imports_bound s ->
  hub_from_pretrained L "transformers.BlipProcessor" blip_checkpoint = Ok processor ->
  hub_from_pretrained L "transformers.BlipForQuestionAnswering" blip_checkpoint = Ok model ->
  pil_open L p = Ok opened ->
  pil_convert L opened "RGB" = Ok image ->
  call_image_question L processor image q "pt" = Ok inputs ->
  generate L model inputs false = Ok (first :: rest) ->
  decode L processor first true = Ok answer ->
  let x := perform_blip_qa L p q s in
  outcome x = Ok answer /\
  trace x = blip_qa_trace p q processor model opened image inputs (first :: rest) first.
Proof.
  intros (Ht & Hp & Hm & Hi) Hproc Hmodel Hopen Hconv Hinp Hgen Hdec x. subst x.
  as_property_of (perform_blip_qa L p q s).
  run. done.
Qed.

Lemma blip_vqa_cell_run s processor model opened image inputs first rest answer :
  runs_as_main s = true ->
  hub_from_pretrained L "transformers.BlipProcessor" blip_checkpoint = Ok processor ->
  hub_from_pretrained L "transformers.BlipForQuestionAnswering" blip_checkpoint = Ok model ->
  pil_open L "cat.jpg" = Ok opened ->
  pil_convert L opened "RGB" = Ok image ->
  call_image_question L processor image "What color is the cat?" "pt" = Ok inputs ->
  generate L model inputs false = Ok (first :: rest) ->
  decode L processor first true = Ok answer ->
  let x := blip_vqa_cell L s in
  outcome x = Ok tt /\
  stdout (trace x) =
    [PStr "Question: What color is the cat?"; PStr ("Answer: " +:+ answer)].
Proof.
  intros Hmain Hproc Hmodel Hopen Hconv Hinp Hgen Hdec x. subst x.
  unfold runs_as_main in Hmain.
  destruct (globals s !! "__name__") as [v|] eqn:Hname; [|discriminate Hmain].
  as_property_of (blip_vqa_cell L s).
  run. done.
Qed.

(** Whatever [perform_blip_qa] returns is the decoding of the first
    generated sequence. *)
Lemma perform_blip_qa_answer_is_decoded p q s answer :
  outcome (perform_blip_qa L p q s) = Ok answer ->
  exists processor model inputs generated_ids first,
    generate L model inputs false = Ok generated_ids /\
    generated_ids !! 0%nat = Some first /\
    decode L processor first true = Ok answer.
Proof.
  as_property_of (perform_blip_qa L p q s).
  run; intros Hret; try discriminate Hret.
  injection Hret as <-.
  match goal with
  | H : match ?ids !! 0%nat with _ => _ end = Ok _ |- _ =>
      destruct (ids !! 0%nat) eqn:Hfirst; [injection H as ->|discriminate H]
  end.
  eauto 10.
Qed.

(** A successful run of the second similarity cell found [Image],
    [processor] and [model] bound. *)
Lemma second_similarity_cell_needs_first texts path s :
  is_ok (outcome (second_clip_similarity_cell_on L texts path s)) = true ->
  exists processor model, similarity_ready s processor model.
Proof.
  as_property_of (second_clip_similarity_cell_on L texts path s).
  run; try (intros; discriminate).
  intros _. unfold similarity_ready.
  repeat match goal with
    | H : String.eqb _ _ = true |- _ => apply String.eqb_eq in H; subst
    end.
  eauto.
Qed.

(** A successful run of the first similarity cell leaves them bound. *)
Lemma first_similarity_cell_binds texts path s :
  is_ok (outcome (clip_similarity_cell_on L texts path s)) = true ->
  exists processor model,
    similarity_ready (final (clip_similarity_cell_on L texts path s)) processor model.
Proof.
  as_property_of (clip_similarity_cell_on L texts path s).
  run; try (intros; discriminate).
  intros _. unfold similarity_ready. cbn [globals].
  do 2 eexists. repeat split; solve_lookup.
Qed.

(** Every call of a run is one of the steps the run follows. *)
Lemma follows_In_step {A} ks (x : result A * State L * list (entry L)) c :
  follows ks x -> In c (calls (trace x)) -> In (step_of c) ks.
Proof.
  intros [[k ->] _] Hin. apply in_or_app. left.
  unfold steps, calls in *. apply in_map_iff in Hin as ([c' o] & <- & Hin).
  apply in_map_iff. by exists (c', o).
Qed.

Lemma perform_blip_qa_generates_without_grad p q s m i g :
  In (CGenerate m i g) (calls (trace (perform_blip_qa L p q s))) -> g = false.
Proof.
  as_property_of (perform_blip_qa L p q s).
  run; intros Hin; each_call Hin; by injection Hin.
Qed.

(** The image [perform_blip_qa] hands to the processor is the converted one. *)
Lemma perform_blip_qa_processor_call p q s processor model opened image :
  blip_imports_bound s ->
  hub_from_pretrained L "transformers.BlipProcessor" blip_checkpoint = Ok processor ->
  hub_from_pretrained L "transformers.BlipForQuestionAnswering" blip_checkpoint = Ok model ->
  pil_open L p = Ok opened ->
  pil_convert L opened "RGB" = Ok image ->
  let t := calls (trace (perform_blip_qa L p q s)) in
  In (CConvert opened "RGB") t /\
  In (CProcessImageQuestion processor image q "pt") t /\
  forall pr im qu rt, In (CProcessImageQuestion pr im qu rt) t -> im = image.
Proof.
  intros (Ht & Hp & Hm & Hi) Hproc Hmodel Hopen Hconv t. subst t.
  as_property_of (perform_blip_qa L p q s).
  run; unfold calls; cbn [map fst]; (split; [|split]);
    first
      [ cbn; tauto
      | intros pr im qu rt Hin; each_call Hin; by injection Hin ].
Qed.

End Performs.

(** ** The autograd node of [softmax] *)

Section Softmax.

Lemma softmax_dim1_grad_fn (t : Tensor) :
  grad_fn t <> None -> grad_fn (softmax_dim1 true t) = Some "SoftmaxBackward0".
Proof. cbn. by destruct (grad_fn t). Qed.

End Softmax.

(** Every call of a trace is within the boundary. *)
Ltac each_within :=
  cbn [calls map fst];
  repeat (apply List.Forall_cons;
          [ cbn [within_boundary within_boundary_of_qa];
            first
              [ exact I
              | by left
              | by right
              | reflexivity
              | right; eexists; split; [|reflexivity]; cbn;
                match goal with
                | H : decode _ _ _ _ = Ok _ |- _ => rewrite H
                end; cbn; tauto ]
          |]);
  apply List.Forall_nil.

(** ** What the cells exchange with the outside *)

Section Boundary.
Context (L : Library).
Implicit Types s : State L.

Lemma cells_within_boundary :
  Forall (fun c : M L unit =>
            forall s, Forall (within_boundary (trace (c s))) (calls (trace (c s))))
    (code_cells L (notebook L)).
Proof.
  rewrite code_cells_notebook.
  repeat (apply List.Forall_cons; [intros s|]); [..|apply List.Forall_nil].
  - as_property_of (imports_cell L s). run. constructor.
  - as_property_of (clip_similarity_cell L s). run; each_within.
  - as_property_of (second_clip_similarity_cell L s). run; each_within.
  - as_property_of (blip_vqa_cell L s). run; each_within.
Qed.

Lemma perform_blip_qa_within_boundary p q s :
  Forall (within_boundary_of_qa p) (calls (trace (perform_blip_qa L p q s))).
Proof. as_property_of (perform_blip_qa L p q s). run; each_within. Qed.

End Boundary.

(** * Main results *)

Section Claims.
Context (L : Library).
Implicit Types s : State L.

(** C2.  A call of [perform_blip_qa] whose library calls succeed returns
    the string [processor.decode] gives for the first generated sequence,
    [generated_ids[0]], with [skip_special_tokens=True], and the decoding is
    the last call it makes; and whatever a call returns, in any kernel, is
    such a decoding. *)
Theorem perform_blip_qa_returns_the_decoded_answer
    p q s processor model opened image inputs first rest answer :
  blip_imports_bound s ->
  hub_from_pretrained L "transformers.BlipProcessor" blip_checkpoint = Ok processor ->
  hub_from_pretrained L "transformers.BlipForQuestionAnswering" blip_checkpoint = Ok model ->
  pil_open L p = Ok opened ->
  pil_convert L opened "RGB" = Ok image ->
  call_image_question L processor image q "pt" = Ok inputs ->
  generate L model inputs false = Ok (first :: rest) ->
  decode L processor first true = Ok answer ->
  outcome (perform_blip_qa L p q s) = Ok answer /\
  last (calls (trace (perform_blip_qa L p q s))) =
    Some (CDecode processor first true) /\
  (forall s' a,
     outcome (perform_blip_qa L p q s') = Ok a ->
     exists processor' model' inputs' generated_ids first',
       generate L model' inputs' false = Ok generated_ids /\
       generated_ids !! 0%nat = Some first' /\
       decode L processor' first' true = Ok a).
Proof.
  intros Hb Hproc Hmodel Hopen Hconv Hinp Hgen Hdec.
  destruct (perform_blip_qa_run L p q s processor model opened image inputs
              first rest answer) as (Hok & Htrace); [done..|].
  split; [by rewrite Hok|]. split; [by rewrite Htrace|].
  intros s' a. apply perform_blip_qa_answer_is_decoded.
Qed.

(** C3.  No cell and no function of the notebook handles exceptions: when a
    library call raises, the exception is the outcome of [perform_blip_qa],
    of the cell and of the whole run, as the library raised it, and no call
    is made after it. *)
Theorem exceptions_propagate_unchanged :
  Forall propagates (code_cells L (notebook L)) /\
  (forall p q, propagates (perform_blip_qa L p q)) /\
  propagates (run_all L).
Proof.
  split; [apply cells_propagate|].
  split; [apply perform_blip_qa_propagates|].
  apply propagates_run_cells, cells_propagate.
Qed.






(** C9.  [perform_blip_qa] converts the image it opened to RGB and hands the
    converted image to the processor, whatever the mode of the file: with
    PIL's [convert] returning an image of the mode asked for, every image
    that reaches the BLIP processor has mode RGB.  The similarity cells make
    no call of [convert]: the processor gets the image as [Image.open]
    returned it. *)
Theorem perform_blip_qa_converts_to_rgb
    p q texts path s processor model opened image clip_processor clip_model img :
  (forall i mode i', pil_convert L i mode = Ok i' -> pil_mode L i' = mode) ->
  blip_imports_bound s ->
  hub_from_pretrained L "transformers.BlipProcessor" blip_checkpoint = Ok processor ->
  hub_from_pretrained L "transformers.BlipForQuestionAnswering" blip_checkpoint = Ok model ->
  pil_open L p = Ok opened ->
  pil_convert L opened "RGB" = Ok image ->
  (In (CConvert opened "RGB") (calls (trace (perform_blip_qa L p q s))) /\
   In (CProcessImageQuestion processor image q "pt")
     (calls (trace (perform_blip_qa L p q s))) /\
   forall pr im qu rt,
     In (CProcessImageQuestion pr im qu rt) (calls (trace (perform_blip_qa L p q s))) ->
     pil_mode L im = "RGB") /\
  (forall s' i mode,
     ~ In (CConvert i mode) (calls (trace (clip_similarity_cell_on L texts path s'))) /\
     ~ In (CConvert i mode) (calls (trace (second_clip_similarity_cell_on L texts path s')))) /\
  (similarity_ready s clip_processor clip_model ->
   pil_open L path = Ok img ->
   In (CProcessTextImages clip_processor texts img "pt" true)
     (calls (trace (second_clip_similarity_cell_on L texts path s)))).
Proof.
  intros Hpil Hb Hproc Hmodel Hopen Hconv. split; [|split].
  - destruct (perform_blip_qa_processor_call L p q s processor model opened image)
      as (Hc & Hp & Honly); [done..|].
    split; [done|]. split; [done|].
    intros pr im qu rt Hin. apply Honly in Hin as ->. by eapply Hpil.
  - intros s' i mode. split; intros Hin.
    + eapply follows_In_step in Hin; [|apply first_similarity_cell_performs].
      each_step Hin.
    + eapply follows_In_step in Hin; [|apply second_similarity_cell_performs].
      each_step Hin.
  - intros (Hi & Hp & Hm) Himg.
    as_property_of (second_clip_similarity_cell_on L texts path s).
    run; cbn; tauto.
Qed.


End Claims.

(** * What the cells write *)

Section Frames.
Context (L : Library).
Implicit Types s : State L.

(** X1.  A run of a similarity cell, successful or failed, changes no global
    other than the names the cell assigns: the second cell rebinds [inputs],
    which the first one bound, and leaves every other name of the first
    cell alone. *)
Theorem similarity_cells_write_their_names_only texts path s n :
  (~ In n ["CLIPProcessor"; "CLIPModel"; "Image"; "model"; "processor";
           "texts"; "image"; "inputs"; "outputs"; "logits_per_image"] ->
   globals (final (clip_similarity_cell_on L texts path s)) !! n = globals s !! n) /\
  (~ In n ["texts2"; "image2"; "inputs"; "outputs2"; "logits_per_image2"] ->
   globals (final (second_clip_similarity_cell_on L texts path s)) !! n = globals s !! n).
Proof.
  split; intros Hn.
  - as_property_of (clip_similarity_cell_on L texts path s).
    run; cbn [globals];
      repeat (rewrite lookup_insert_ne; [|intros <-; apply Hn; cbn; tauto]);
      reflexivity.
  - as_property_of (second_clip_similarity_cell_on L texts path s).
    run; cbn [globals];
      repeat (rewrite lookup_insert_ne; [|intros <-; apply Hn; cbn; tauto]);
      reflexivity.
Qed.

(** X2.  The VQA cell changes no global other than the names it imports,
    the function it defines and [image_path], [question] and [answer]: the
    variables of [perform_blip_qa] are locals, so the [model], [processor]
    and [inputs] of the similarity cells are still bound as they were. *)
Theorem blip_vqa_cell_writes_its_names_only s n :
  ~ In n ["torch"; "BlipProcessor"; "BlipForQuestionAnswering"; "Image";
          "perform_blip_qa"; "image_path"; "question"; "answer"] ->
  globals (final (blip_vqa_cell L s)) !! n = globals s !! n.
Proof.
  intros Hn. as_property_of (blip_vqa_cell L s).
  run; cbn [globals];
    repeat (rewrite lookup_insert_ne; [|intros <-; apply Hn; cbn; tauto]);
    reflexivity.
Qed.

End Frames.

(** * Missing names and failing calls *)

(** Two hypotheses on the result of the same library call: the case is
    impossible, or the results are the same. *)
Ltac agree :=
  repeat match goal with
    | H1 : ?r = Raise _, H2 : ?r = Ok _ |- _ => rewrite H1 in H2; discriminate H2
    | H1 : ?r = Raise _, H2 : ?r = Raise _ |- _ =>
        rewrite H1 in H2; injection H2 as H2; subst
    | H1 : ?r = Ok _, H2 : ?r = Ok _ |- _ =>
        rewrite H1 in H2; injection H2 as H2; subst
    end.

Section Failures.
Context (L : Library).
Implicit Types s : State L.

(** X3.  The second similarity cell run out of order.  With [Image] unbound
    it raises NameError at once, before any call.  With [Image] imported but
    no [processor], the image file is opened first and [image2] is bound;
    then NameError is raised for [processor].  With a processor but no
    [model], the processor has run and [inputs] is bound before NameError
    is raised for [model]. *)
Theorem second_similarity_cell_out_of_order texts path s img processor enc :
  (globals s !! "Image" = None ->
   outcome (second_clip_similarity_cell_on L texts path s) = Raise (NameError "Image") /\
   trace (second_clip_similarity_cell_on L texts path s) = []) /\
  (globals s !! "Image" = Some (VImported "PIL.Image") ->
   pil_open L path = Ok img ->
   globals s !! "processor" = None ->
   outcome (second_clip_similarity_cell_on L texts path s) =
     Raise (NameError "processor") /\
   trace (second_clip_similarity_cell_on L texts path s) = [(CImageOpen path, None)] /\
   globals (final (second_clip_similarity_cell_on L texts path s)) !! "image2" =
     Some (VImage img)) /\
  (globals s !! "Image" = Some (VImported "PIL.Image") ->
   pil_open L path = Ok img ->
   globals s !! "processor" = Some (VObj processor) ->
   call_text_images L processor texts img "pt" true = Ok enc ->
   globals s !! "model" = None ->
   outcome (second_clip_similarity_cell_on L texts path s) = Raise (NameError "model") /\
   trace (second_clip_similarity_cell_on L texts path s) =
     [(CImageOpen path, None);
      (CProcessTextImages processor texts img "pt" true, None)] /\
   globals (final (second_clip_similarity_cell_on L texts path s)) !! "inputs" =
     Some (VEnc enc)).
Proof.
  split; [|split].
  - intros Himage.
    as_property_of (second_clip_similarity_cell_on L texts path s). run. done.
  - intros Himage Hopen Hproc.
    as_property_of (second_clip_similarity_cell_on L texts path s). run.
    cbn [globals]. repeat split. solve_lookup.
  - intros Himage Hopen Hproc Henc Hmodel.
    as_property_of (second_clip_similarity_cell_on L texts path s). run.
    cbn [globals]. repeat split. solve_lookup.
Qed.

(** X4.  [perform_blip_qa] loads the processor and the model before it
    looks at the image: when [Image.open] raises, both [from_pretrained]
    calls have been made, nothing is called after the failed open, and the
    exception is the outcome. *)
Theorem perform_blip_qa_opens_the_image_after_loading p q s processor model e :
  blip_imports_bound s ->
  hub_from_pretrained L "transformers.BlipProcessor" blip_checkpoint = Ok processor ->
  hub_from_pretrained L "transformers.BlipForQuestionAnswering" blip_checkpoint = Ok model ->
  pil_open L p = Raise e ->
  outcome (perform_blip_qa L p q s) = Raise e /\
  trace (perform_blip_qa L p q s) =
    [ (CFromPretrained "transformers.BlipProcessor" blip_checkpoint, None);
      (CFromPretrained "transformers.BlipForQuestionAnswering" blip_checkpoint, None);
      (CImageOpen p, Some e) ].
Proof.
  intros (Ht & Hp & Hm & Hi) Hproc Hmodel Hopen.
  as_property_of (perform_blip_qa L p q s).
  run; agree; done.
Qed.

(** X5.  When the processor cannot be loaded, [perform_blip_qa] stops
    there: the model is not loaded and no file is read. *)
Theorem perform_blip_qa_stops_at_the_first_failed_load p q s e :
  blip_imports_bound s ->
  hub_from_pretrained L "transformers.BlipProcessor" blip_checkpoint = Raise e ->
  outcome (perform_blip_qa L p q s) = Raise e /\
  trace (perform_blip_qa L p q s) =
    [ (CFromPretrained "transformers.BlipProcessor" blip_checkpoint, Some e) ].
Proof.
  intros (Ht & Hp & Hm & Hi) Hproc.
  as_property_of (perform_blip_qa L p q s).
  run; agree; done.
Qed.

(** X6.  [generated_ids[0]] is not guarded: when the model generates an
    empty batch, [perform_blip_qa] raises at the indexing, and [decode] is
    never called. *)
Theorem perform_blip_qa_on_an_empty_batch p q s model inputs :
  In (CGenerate model inputs false) (calls (trace (perform_blip_qa L p q s))) ->
  generate L model inputs false = Ok [] ->
  is_ok (outcome (perform_blip_qa L p q s)) = false /\
  (exists e, last (trace (perform_blip_qa L p q s)) = Some (CGetItem [] 0, Some e)) /\
  forall processor ids skip,
    ~ In (CDecode processor ids skip) (calls (trace (perform_blip_qa L p q s))).
Proof.
  as_property_of (perform_blip_qa L p q s).
  run; intros Hin Hgen; each_call Hin; injection Hin as <- <-; agree;
    try match goal with
      | H : match [] !! 0%nat with _ => _ end = _ |- _ => cbn in H; simplify_eq
      end;
    (split; [reflexivity|]); (split; [by eexists|]);
    intros pr ids skip Hd; each_call Hd.
Qed.

End Failures.

(** * What reaches stdout *)

Section Output.
Context (L : Library).
Implicit Types s : State L.

(** X7.  [print] is the last statement of a similarity cell: in a kernel
    that leaves [print] to [builtins], a run prints one tensor when it
    succeeds and nothing when any step fails. *)
Theorem similarity_cells_print_on_success_only texts path s :
  print_is_builtin s ->
  match outcome (clip_similarity_cell_on L texts path s) with
  | Ok _ => exists t, stdout (trace (clip_similarity_cell_on L texts path s)) = [PTensor t]
  | Raise _ => stdout (trace (clip_similarity_cell_on L texts path s)) = []
  end /\
  match outcome (second_clip_similarity_cell_on L texts path s) with
  | Ok _ =>
      exists t, stdout (trace (second_clip_similarity_cell_on L texts path s)) = [PTensor t]
  | Raise _ => stdout (trace (second_clip_similarity_cell_on L texts path s)) = []
  end.
Proof.
  intros _. split.
  - as_property_of (clip_similarity_cell_on L texts path s).
    run; first [reflexivity | by eexists].
  - as_property_of (second_clip_similarity_cell_on L texts path s).
    run; first [reflexivity | by eexists].
Qed.

(** X8.  [perform_blip_qa] prints nothing, reads no file but the one at
    [image_path], and loads nothing but the BLIP checkpoint, in any kernel
    and whether it succeeds or not. *)
Theorem perform_blip_qa_is_silent p q s :
  stdout (trace (perform_blip_qa L p q s)) = [] /\
  (forall path, In (CImageOpen path) (calls (trace (perform_blip_qa L p q s))) -> path = p) /\
  (forall cls name,
     In (CFromPretrained cls name) (calls (trace (perform_blip_qa L p q s))) ->
     name = "Salesforce/blip-vqa-base").
Proof.
  as_property_of (perform_blip_qa L p q s).
  run; (split; [reflexivity|]); split.
  all: intros; match goal with H : In _ _ |- _ => each_call H; by injection H end.
Qed.

(** X9.  The guard of cell 21: in a kernel where [__name__] is bound to
    anything but "__main__", the cell imports its names and defines
    [perform_blip_qa], and that is all: no call, no output, and [answer] is
    left as it was. *)
Theorem blip_vqa_cell_not_as_main s v :
  globals s !! "__name__" = Some v ->
  is_main v = false ->
  outcome (blip_vqa_cell L s) = Ok tt /\
  trace (blip_vqa_cell L s) = [] /\
  globals (final (blip_vqa_cell L s)) !! "perform_blip_qa" =
    Some (VFunction "perform_blip_qa") /\
  globals (final (blip_vqa_cell L s)) !! "answer" = globals s !! "answer".
Proof.
  intros Hname Hmain. as_property_of (blip_vqa_cell L s).
  run. cbn [globals]. repeat split; solve_lookup.
Qed.


(** X11.  The first similarity cell and cell 21 import every name they
    read, [print] and [__name__] apart, which [builtins] binds: in any
    kernel that leaves [print] to [builtins] a run ends well or with the
    exception its last library call raised, never with a NameError or
    TypeError of the cell's own code.  That holds for cell 21 also where
    [__name__] is unbound: the guard is false there and the cell ends
    well. *)
Theorem cells_11_and_21_are_self_contained texts path s :
  print_is_builtin s ->
  fails_in_library (clip_similarity_cell_on L texts path s) /\
  fails_in_library (blip_vqa_cell L s) /\
  (globals s !! "__name__" = None -> outcome (blip_vqa_cell L s) = Ok tt).
Proof.
  intros _. split; [|split].
  - as_property_of (clip_similarity_cell_on L texts path s).
    run; unfold fails_in_library; cbn [outcome trace fst snd]; first [done | by eexists].
  - as_property_of (blip_vqa_cell L s).
    run; unfold fails_in_library; cbn [outcome trace fst snd]; first [done | by eexists].
  - intros Hname. as_property_of (blip_vqa_cell L s). run. done.
Qed.

End Output.

(** * The notebook as a whole *)

Section WholeRun.
Context (L : Library).
Implicit Types s : State L.

(** X12.  A run of the whole notebook in which no call raises.  The second
    similarity cell calls the very processor and model the first one
    loaded; four things are printed, two tensors and two lines.  At the end
    [inputs] holds the encoding of the second image, [outputs] the output
    for the first one, and [model] and [processor] are the CLIP objects:
    the locals of [perform_blip_qa] did not replace them. *)
Theorem whole_notebook_run
    texts clip_model clip_processor cat cat_dog enc1 enc2 out1 out2
    processor model rgb inputs first rest answer :
  texts = ["A photo of a cat"; "A photo of a dog"] ->
  hub_from_pretrained L "transformers.CLIPModel" clip_checkpoint = Ok clip_model ->
  hub_from_pretrained L "transformers.CLIPProcessor" clip_checkpoint = Ok clip_processor ->
  pil_open L "cat.jpg" = Ok cat ->
  call_text_images L clip_processor texts cat "pt" true = Ok enc1 ->
  forward L clip_model enc1 true = Ok out1 ->
  pil_open L "cat_dog.jpg" = Ok cat_dog ->
  call_text_images L clip_processor texts cat_dog "pt" true = Ok enc2 ->
  forward L clip_model enc2 true = Ok out2 ->
  hub_from_pretrained L "transformers.BlipProcessor" blip_checkpoint = Ok processor ->
  hub_from_pretrained L "transformers.BlipForQuestionAnswering" blip_checkpoint = Ok model ->
  pil_convert L cat "RGB" = Ok rgb ->
  call_image_question L processor rgb "What color is the cat?" "pt" = Ok inputs ->
  generate L model inputs false = Ok (first :: rest) ->
  decode L processor first true = Ok answer ->
  let x := run_all L (fresh_kernel L) in
  outcome x = Ok tt /\
  trace x =
    clip_load_trace L ++
    similarity_trace texts "cat.jpg" true clip_processor clip_model cat enc1 out1 ++
    similarity_trace texts "cat_dog.jpg" true clip_processor clip_model cat_dog enc2 out2 ++
    blip_qa_trace "cat.jpg" "What color is the cat?" processor model cat rgb inputs
      (first :: rest) first ++
    [ (CPrint (PStr "Question: What color is the cat?"), None);
      (CPrint (PStr ("Answer: " +:+ answer)), None) ] /\
  globals (final x) !! "inputs" = Some (VEnc enc2) /\
  globals (final x) !! "outputs" = Some (VOutput out1) /\
  globals (final x) !! "outputs2" = Some (VOutput out2) /\
  globals (final x) !! "model" = Some (VObj clip_model) /\
  globals (final x) !! "processor" = Some (VObj clip_processor) /\
  globals (final x) !! "answer" = Some (VStr answer) /\
  grad_enabled (final x) = true.
Proof.
  intros -> Hcm Hcp Hcat He1 Ho1 Hcd He2 Ho2 Hp Hm Hrgb Hin Hgen Hdec x. subst x.
  as_property_of (run_all L (fresh_kernel L)).
  run. cbn [globals grad_enabled]. repeat split; solve_lookup.
Qed.

End WholeRun.

(** * What the cells depend on *)

Section Dependence.
Context (L : Library).
Implicit Types s : State L.

Lemma agree_on_incl names names' s1 s2 :
  incl names' names -> agree_on names s1 s2 -> agree_on (L:=L) names' s1 s2.
Proof.
  intros Hincl [Hg Hn]. split; [done|].
  rewrite List.Forall_forall in *. auto.
Qed.

Lemma insert_agree (g1 g2 : gmap string (value L)) k v n :
  g1 !! n = g2 !! n -> <[k:=v]> g1 !! n = <[k:=v]> g2 !! n.
Proof.
  intros H. destruct (decide (k = n)) as [->|Hne].
  - by rewrite !lookup_insert_eq.
  - by rewrite !lookup_insert_ne.
Qed.

Lemma depends_on_bind {A B} (m : M L A) (k : A -> M L B) r w1 r2 w2 :
  depends_on m r w1 -> (forall a, depends_on (k a) r2 w2) ->
  incl r2 (w1 ++ r) -> depends_on (bind m k) r (w2 ++ w1).
Proof.
  intros Hm Hk Hincl names s1 s2 Hagree.
  destruct (Hm names s1 s2 Hagree) as [[Ho Ht] Hf].
  rewrite !bind_run.
  destruct (m s1) as [[[a|e] t1] l1], (m s2) as [[[a2|e2] t2] l2];
    cbn in Ho, Ht, Hf; simplify_eq.
  - specialize (Hf eq_refl).
    destruct (Hk a2 (w1 ++ r ++ names) t1 t2) as [[Ho' Ht'] Hf'].
    { eapply agree_on_incl; [|exact Hf].
      intros n. rewrite !in_app_iff. intros [Hn|Hn]; [|tauto].
      apply Hincl, in_app_iff in Hn. tauto. }
    split.
    + split; [by rewrite !outcome_prepend | rewrite !trace_prepend; congruence].
    + rewrite !outcome_prepend, !final_prepend. intros Hok.
      eapply agree_on_incl; [|exact (Hf' Hok)].
      intros n. rewrite !in_app_iff. tauto.
  - split; [done|]. discriminate.
Qed.

End Dependence.

(** The code is run in the first kernel, then in the second one along the
    same path; the kernels they leave are compared name by name. *)
Ltac rerun := unfold_cells; repeat (run1; agree); leaf.

Ltac in_both_kernels x1 x2 :=
  let y := fresh "y" in
  let Hy := fresh "Hy" in
  remember x2 as y eqn:Hy;
  as_property_of x1; run;
  rewrite Hy; clear Hy y;
  as_property_of x2; rerun; agree;
  (split; [done|]); intros Hok; try discriminate Hok;
  (split; [done|]); cbn [globals app];
  repeat (apply List.Forall_cons;
          [first [solve_lookup | repeat apply insert_agree; congruence]|]);
  (eapply List.Forall_impl; [|eassumption]);
  intros ? ?; cbn beta; by repeat apply insert_agree.

Ltac split_agreement H :=
  cbn [app] in H;
  repeat (let Hread := fresh "Hread" in
          apply Forall_cons_1 in H as [Hread H]; cbn beta in Hread;
          symmetry in Hread).

Section CellDependence.
Context (L : Library).
Implicit Types s : State L.

(** What each cell reads from the kernel it is run in, and what it binds
    when it ends well. *)
Lemma imports_cell_depends : depends_on (imports_cell L) [] [].
Proof.
  intros names s1 s2 [Hg Hn]. symmetry in Hg. split_agreement Hn.
  in_both_kernels (imports_cell L s1) (imports_cell L s2).
Qed.

Lemma clip_similarity_cell_on_depends texts path :
  depends_on (clip_similarity_cell_on L texts path) []
    ["CLIPProcessor"; "CLIPModel"; "Image"; "model"; "processor";
     "texts"; "image"; "inputs"; "outputs"; "logits_per_image"].
Proof.
  intros names s1 s2 [Hg Hn]. symmetry in Hg. split_agreement Hn.
  in_both_kernels (clip_similarity_cell_on L texts path s1)
    (clip_similarity_cell_on L texts path s2).
Qed.

Lemma second_clip_similarity_cell_on_depends texts path :
  depends_on (second_clip_similarity_cell_on L texts path)
    ["Image"; "processor"; "model"]
    ["texts2"; "image2"; "inputs"; "outputs2"; "logits_per_image2"].
Proof.
  intros names s1 s2 [Hg Hn]. symmetry in Hg. split_agreement Hn.
  in_both_kernels (second_clip_similarity_cell_on L texts path s1)
    (second_clip_similarity_cell_on L texts path s2).
Qed.

Lemma blip_vqa_cell_depends :
  depends_on (blip_vqa_cell L) ["__name__"]
    ["torch"; "BlipProcessor"; "BlipForQuestionAnswering"; "Image";
     "perform_blip_qa"].
Proof.
  intros names s1 s2 [Hg Hn]. symmetry in Hg. split_agreement Hn.
  in_both_kernels (blip_vqa_cell L s1) (blip_vqa_cell L s2).
Qed.

End CellDependence.

Ltac solve_incl := unfold incl; intros ?; cbn [In app]; tauto.

Section NotebookDependence.
Context (L : Library).
Implicit Types s : State L.

Lemma depends_on_weaken {A} (m : M L A) r w r' w' :
  depends_on m r w -> incl r r' -> incl w' w -> depends_on m r' w'.
Proof.
  intros Hm Hr Hw names s1 s2 Hagree.
  destruct (Hm (r' ++ names) s1 s2) as [Hsame Hf].
  { eapply agree_on_incl; [|exact Hagree].
    intros n. rewrite !in_app_iff. intros [Hn|Hn]; [left; by apply Hr | tauto]. }
  split; [done|]. intros Hok. eapply agree_on_incl; [|exact (Hf Hok)].
  intros n. rewrite !in_app_iff. intros [Hn|[Hn|Hn]]; auto.
Qed.

Lemma depends_on_ret {A} (a : A) : depends_on (L:=L) (ret a) [] [].
Proof. intros names s1 s2 Hagree. split; [done|]. by intros _. Qed.

Lemma agree_on_trans names s1 s2 s3 :
  agree_on (L:=L) names s1 s2 -> agree_on names s2 s3 -> agree_on names s1 s3.
Proof.
  intros [Hg1 Hn1] [Hg2 Hn2]. split; [congruence|].
  rewrite List.Forall_forall in *. intros n Hn.
  by rewrite (Hn1 n Hn), (Hn2 n Hn).
Qed.

Lemma other_cells_depend :
  depends_on
    (run_cells L [clip_similarity_cell L; second_clip_similarity_cell L; blip_vqa_cell L])
    ["__name__"] [].
Proof.
  cbn [run_cells].
  eapply depends_on_weaken; [|apply incl_refl|apply incl_nil_l].
  eapply depends_on_bind.
  - eapply depends_on_weaken;
      [apply clip_similarity_cell_on_depends|apply incl_nil_l|apply incl_refl].
  - intros _. eapply depends_on_bind.
    + apply (depends_on_weaken _ _ _ ["Image"; "processor"; "model"; "__name__"] _
               (second_clip_similarity_cell_on_depends L _ _));
        [solve_incl|apply incl_refl].
    + intros _. eapply depends_on_bind;
        [apply blip_vqa_cell_depends|intros _; apply depends_on_ret|apply incl_nil_l].
    + solve_incl.
  - solve_incl.
Qed.

Lemma run_all_cons s :
  run_all L s =
  bind (imports_cell L)
    (fun _ => run_cells L [clip_similarity_cell L; second_clip_similarity_cell L;
                           blip_vqa_cell L]) s.
Proof. reflexivity. Qed.

Lemma run_all_depends : depends_on (run_all L) ["__name__"] [].
Proof.
  unfold run_all. rewrite code_cells_notebook.
  change (depends_on
            (bind (imports_cell L)
               (fun _ => run_cells L [clip_similarity_cell L;
                                      second_clip_similarity_cell L;
                                      blip_vqa_cell L]))
            ["__name__"] ([] ++ [])).
  eapply depends_on_bind.
  - eapply depends_on_weaken;
      [apply imports_cell_depends|apply incl_nil_l|apply incl_refl].
  - intros _. apply other_cells_depend.
  - solve_incl.
Qed.

(** Code that leaves the gradient mode and the bindings of some names as
    they were. *)
Lemma keeps_bind {A B} (m : M L A) (k : A -> M L B) names :
  (forall s, agree_on names (final (m s)) s) ->
  (forall a s, agree_on names (final (k a s)) s) ->
  forall s, agree_on names (final (bind m k s)) s.
Proof.
  intros Hm Hk s. rewrite bind_run. specialize (Hm s).
  destruct (m s) as [[[a|e] s1] l1]; [|done].
  rewrite final_prepend. by eapply agree_on_trans.
Qed.

Lemma cells_keep_name s :
  agree_on ["__name__"] (final (imports_cell L s)) s /\
  agree_on ["__name__"] (final (clip_similarity_cell L s)) s /\
  agree_on ["__name__"] (final (second_clip_similarity_cell L s)) s /\
  agree_on ["__name__"] (final (blip_vqa_cell L s)) s.
Proof.
  split; [|split; [|split]].
  - as_property_of (imports_cell L s).
    run; (split; [reflexivity|]); repeat constructor; solve_lookup.
  - as_property_of (clip_similarity_cell L s).
    run; (split; [reflexivity|]); repeat constructor; solve_lookup.
  - as_property_of (second_clip_similarity_cell L s).
    run; (split; [reflexivity|]); repeat constructor; solve_lookup.
  - as_property_of (blip_vqa_cell L s).
    run; (split; [reflexivity|]); repeat constructor; solve_lookup.
Qed.

Lemma run_all_keeps_name s : agree_on ["__name__"] (final (run_all L s)) s.
Proof.
  revert s. unfold run_all. rewrite code_cells_notebook. cbn [run_cells].
  repeat (apply keeps_bind; [intros s; apply (cells_keep_name s)|intros _]).
  intros s. split; [done|]. by repeat constructor.
Qed.

(** X13.  The notebook depends on the kernel it is run in through the
    gradient mode, [__name__] and [print] at most: in two kernels that
    leave [print] to [builtins] and agree on the other two, a Run All makes
    the same calls and ends the same way.  Every other name a cell reads
    was bound by the same cell or by one that ran before it.  A library
    call is taken to give the same result for the same arguments. *)
Theorem notebook_depends_on_name_only s1 s2 :
  print_is_builtin s1 ->
  print_is_builtin s2 ->
  grad_enabled s1 = grad_enabled s2 ->
  globals s1 !! "__name__" = globals s2 !! "__name__" ->
  same_run (run_all L s1) (run_all L s2).
Proof.
  intros _ _ Hg Hname. apply (run_all_depends []).
  split; [done|]. by repeat constructor.
Qed.

(** X14.  No later cell relies on a name the Setup cell binds: the other
    three cells, run without it, make the same calls and end the same way,
    in any kernel.  Of the names it imports only [Image] is read later, and
    each cell that reads it imports it again or runs after one that does.
    (An import binds its names; it is not modelled as a call that can
    fail.) *)
Theorem setup_cell_is_not_needed s :
  same_run (run_all L s)
    (run_cells L [clip_similarity_cell L; second_clip_similarity_cell L; blip_vqa_cell L] s).
Proof.
  rewrite run_all_cons, bind_run.
  pose proof (proj1 (cells_keep_name s)) as Hkeep. revert Hkeep.
  as_property_of (imports_cell L s). run. intros Hkeep.
  rewrite prepend_nil.
  by apply (other_cells_depend []).
Qed.

(** X15.  Run All a second time in the same kernel, without a restart,
    repeats the first run: the same calls with the same results and the
    same outcome, whether the first run ended well or not.  No cell writes
    [__name__], and the gradient mode is restored when [torch.no_grad()] is
    left. *)
Theorem run_all_again_repeats_the_run s :
  same_run (run_all L (final (run_all L s))) (run_all L s).
Proof.
  destruct (run_all_keeps_name s) as [Hg Hn].
  apply List.Forall_inv in Hn.
  apply (run_all_depends []).
  split; [done|]. by repeat constructor.
Qed.

(** X16.  The first similarity cell imports and loads all it uses, [print]
    apart: in two kernels in the same gradient mode that leave [print] to
    [builtins] it makes the same calls and ends the same way, whatever else
    they bind.  The second one depends on the kernel through [Image],
    [processor] and [model] besides. *)
Theorem similarity_cells_depend_on texts path s1 s2 :
  print_is_builtin s1 ->
  print_is_builtin s2 ->
  grad_enabled s1 = grad_enabled s2 ->
  same_run (clip_similarity_cell_on L texts path s1)
    (clip_similarity_cell_on L texts path s2) /\
  (globals s1 !! "Image" = globals s2 !! "Image" ->
   globals s1 !! "processor" = globals s2 !! "processor" ->
   globals s1 !! "model" = globals s2 !! "model" ->
   same_run (second_clip_similarity_cell_on L texts path s1)
     (second_clip_similarity_cell_on L texts path s2)).
Proof.
  intros _ _ Hg. split.
  - by apply (clip_similarity_cell_on_depends L texts path []).
  - intros Himage Hproc Hmodel.
    apply (second_clip_similarity_cell_on_depends L texts path []).
    split; [done|]. by repeat constructor.
Qed.

End NotebookDependence.

(** * The results on the small library *)

(** A library call that raises ends the run: without [cat.jpg] the notebook
    stops at the first [Image.open], with the exception PIL raised. *)
Example run_without_cat :
  outcome (run_all toy_without_cat (fresh_kernel toy_without_cat)) =
    Raise (LibraryError "FileNotFoundError: cat.jpg") /\
  last (trace (run_all toy_without_cat (fresh_kernel toy_without_cat))) =
    Some (CImageOpen "cat.jpg", Some (LibraryError "FileNotFoundError: cat.jpg")).
Proof. by vm_compute. Qed.

Lemma perform_blip_qa_returns_the_decoded_answer_witness :
  outcome (perform_blip_qa toy "cat.jpg" "What color is the cat?" after_blip) =
    Ok "orange and white" /\
  last (calls (trace (perform_blip_qa toy "cat.jpg" "What color is the cat?" after_blip))) =
    Some (CDecode (L:=toy) "transformers.BlipProcessor" [101; 4589; 1998; 2317; 102]%Z true).
Proof.
  destruct (perform_blip_qa_returns_the_decoded_answer toy
              "cat.jpg" "What color is the cat?" after_blip
              "transformers.BlipProcessor" "transformers.BlipForQuestionAnswering"
              "L" "RGB" 1%nat [101; 4589; 1998; 2317; 102]%Z [] "orange and white")
    as (Hanswer & Hlast & _).
  - repeat split; vm_compute; reflexivity.
  - reflexivity.
  - reflexivity.
  - reflexivity.
  - reflexivity.
  - reflexivity.
  - reflexivity.
  - reflexivity.
  - split; [exact Hanswer | exact Hlast].
Defined.








Lemma perform_blip_qa_converts_to_rgb_witness :
  let texts := ["A photo of a cat"; "A photo of a dog"] in
  In (CProcessImageQuestion (L:=toy) "transformers.BlipProcessor" "RGB"
        "What color is the cat?" "pt")
    (calls (trace (perform_blip_qa toy "cat.jpg" "What color is the cat?" after_blip))) /\
  In (CProcessTextImages (L:=toy) "transformers.CLIPProcessor" texts "L" "pt" true)
    (calls (trace (second_clip_similarity_cell_on toy texts "cat_dog.jpg" after_blip))).
Proof.
  intros texts.
  destruct (perform_blip_qa_converts_to_rgb toy
              "cat.jpg" "What color is the cat?" texts "cat_dog.jpg" after_blip
              "transformers.BlipProcessor" "transformers.BlipForQuestionAnswering"
              "L" "RGB" "transformers.CLIPProcessor" "transformers.CLIPModel" "L")
    as ((_ & Hblip & _) & _ & Hclip).
  - intros i mode i' Hconv. injection Hconv as <-. reflexivity.
  - repeat split; vm_compute; reflexivity.
  - reflexivity.
  - reflexivity.
  - reflexivity.
  - reflexivity.
  - split; [exact Hblip|]. apply Hclip; [|reflexivity].
    repeat split; vm_compute; reflexivity.
Defined.


(** * The further results on the small library *)

(** The name is none of the listed ones. *)
Ltac not_listed :=
  let H := fresh in
  intros H; cbn [In] in H;
  repeat (destruct H as [H|H]; [discriminate H|]); exact H.

Lemma similarity_cells_write_their_names_only_witness :
  let texts := ["A photo of a cat"; "A photo of a dog"] in
  globals (final (clip_similarity_cell_on toy texts "cat.jpg" after_blip)) !! "answer" =
    globals after_blip !! "answer" /\
  globals (final (second_clip_similarity_cell_on toy texts "cat_dog.jpg" after_blip))
    !! "model" = globals after_blip !! "model".
Proof.
  intros texts. split.
  - apply (similarity_cells_write_their_names_only toy texts "cat.jpg" after_blip "answer").
    not_listed.
  - apply (similarity_cells_write_their_names_only toy texts "cat_dog.jpg" after_blip
             "model").
    not_listed.
Defined.

Lemma blip_vqa_cell_writes_its_names_only_witness :
  globals (final (blip_vqa_cell toy after_first_clip)) !! "model" =
    globals after_first_clip !! "model".
Proof.
  apply (blip_vqa_cell_writes_its_names_only toy after_first_clip "model"). not_listed.
Defined.

Lemma second_similarity_cell_out_of_order_witness :
  let texts := ["A photo of a cat"; "A photo of a dog"] in
  let with_processor : State toy :=
    {| globals :=
         <["processor" := VObj (L:=toy) "transformers.CLIPProcessor"]>
           (globals after_imports);
       grad_enabled := true |} in
  outcome (second_clip_similarity_cell_on toy texts "cat_dog.jpg" (fresh_kernel toy)) =
    Raise (NameError "Image") /\
  outcome (second_clip_similarity_cell_on toy texts "cat_dog.jpg" after_imports) =
    Raise (NameError "processor") /\
  outcome (second_clip_similarity_cell_on toy texts "cat_dog.jpg" with_processor) =
    Raise (NameError "model").
Proof.
  intros texts with_processor. split; [|split].
  - destruct (second_similarity_cell_out_of_order toy texts "cat_dog.jpg"
                (fresh_kernel toy) "L" "transformers.CLIPProcessor" 2%nat)
      as (Himage & _).
    apply Himage. reflexivity.
  - destruct (second_similarity_cell_out_of_order toy texts "cat_dog.jpg"
                after_imports "L" "transformers.CLIPProcessor" 2%nat)
      as (_ & Hprocessor & _).
    apply Hprocessor; vm_compute; reflexivity.
  - destruct (second_similarity_cell_out_of_order toy texts "cat_dog.jpg"
                with_processor "L" "transformers.CLIPProcessor" 2%nat)
      as (_ & _ & Hmodel).
    apply Hmodel; vm_compute; reflexivity.
Defined.

Lemma perform_blip_qa_opens_the_image_after_loading_witness :
  outcome (perform_blip_qa toy_without_cat "cat.jpg" "What color is the cat?"
             (blip_kernel toy_without_cat)) =
    Raise (LibraryError "FileNotFoundError: cat.jpg") /\
  length (trace (perform_blip_qa toy_without_cat "cat.jpg" "What color is the cat?"
                   (blip_kernel toy_without_cat))) = 3%nat.
Proof.
  destruct (perform_blip_qa_opens_the_image_after_loading toy_without_cat
              "cat.jpg" "What color is the cat?" (blip_kernel toy_without_cat)
              "transformers.BlipProcessor" "transformers.BlipForQuestionAnswering"
              (LibraryError "FileNotFoundError: cat.jpg"))
    as (Houtcome & Htrace).
  - repeat split; vm_compute; reflexivity.
  - reflexivity.
  - reflexivity.
  - reflexivity.
  - split; [exact Houtcome|]. rewrite Htrace. reflexivity.
Defined.

Lemma perform_blip_qa_stops_at_the_first_failed_load_witness :
  outcome (perform_blip_qa toy_offline "cat.jpg" "What color is the cat?"
             (blip_kernel toy_offline)) =
    Raise (LibraryError "OSError: cannot reach huggingface.co") /\
  length (trace (perform_blip_qa toy_offline "cat.jpg" "What color is the cat?"
                   (blip_kernel toy_offline))) = 1%nat.
Proof.
  destruct (perform_blip_qa_stops_at_the_first_failed_load toy_offline
              "cat.jpg" "What color is the cat?" (blip_kernel toy_offline)
              (LibraryError "OSError: cannot reach huggingface.co"))
    as (Houtcome & Htrace).
  - repeat split; vm_compute; reflexivity.
  - reflexivity.
  - split; [exact Houtcome|]. rewrite Htrace. reflexivity.
Defined.

Lemma perform_blip_qa_on_an_empty_batch_witness :
  is_ok (outcome (perform_blip_qa toy_empty_batch "cat.jpg" "What color is the cat?"
                    (blip_kernel toy_empty_batch))) = false /\
  exists e,
    last (trace (perform_blip_qa toy_empty_batch "cat.jpg" "What color is the cat?"
                   (blip_kernel toy_empty_batch))) =
      Some (CGetItem (L:=toy_empty_batch) [] 0, Some e).
Proof.
  destruct (perform_blip_qa_on_an_empty_batch toy_empty_batch
              "cat.jpg" "What color is the cat?" (blip_kernel toy_empty_batch)
              "transformers.BlipForQuestionAnswering" 1%nat)
    as (Hfails & Hlast & _).
  - vm_compute. repeat first [left; reflexivity | right].
  - reflexivity.
  - split; [exact Hfails | exact Hlast].
Defined.

Lemma similarity_cells_print_on_success_only_witness :
  let texts := ["A photo of a cat"; "A photo of a dog"] in
  (exists t,
     stdout (trace (clip_similarity_cell_on toy texts "cat.jpg" (fresh_kernel toy))) =
       [PTensor t]) /\
  stdout (trace (clip_similarity_cell_on toy_without_cat texts "cat.jpg"
                   (fresh_kernel toy_without_cat))) = [] /\
  stdout (trace (second_clip_similarity_cell_on toy texts "cat_dog.jpg" after_imports)) = [].
Proof.
  intros texts.
  assert (outcome (clip_similarity_cell_on toy texts "cat.jpg" (fresh_kernel toy)) = Ok tt)
    as Hok by (vm_compute; reflexivity).
  assert (outcome (clip_similarity_cell_on toy_without_cat texts "cat.jpg"
                     (fresh_kernel toy_without_cat)) =
            Raise (LibraryError "FileNotFoundError: cat.jpg"))
    as Hmissing by (vm_compute; reflexivity).
  assert (outcome (second_clip_similarity_cell_on toy texts "cat_dog.jpg" after_imports) =
            Raise (NameError "processor"))
    as Hunbound by (vm_compute; reflexivity).
  destruct (similarity_cells_print_on_success_only toy texts "cat.jpg" (fresh_kernel toy))
    as (Hfirst & _); [vm_compute; reflexivity|].
  destruct (similarity_cells_print_on_success_only toy_without_cat texts "cat.jpg"
              (fresh_kernel toy_without_cat))
    as (Hfails & _); [vm_compute; reflexivity|].
  destruct (similarity_cells_print_on_success_only toy texts "cat_dog.jpg" after_imports)
    as (_ & Hsecond); [vm_compute; reflexivity|].
  rewrite Hok in Hfirst. rewrite Hmissing in Hfails. rewrite Hunbound in Hsecond.
  split; [exact Hfirst|]. split; [exact Hfails | exact Hsecond].
Defined.

Lemma blip_vqa_cell_not_as_main_witness :
  outcome (blip_vqa_cell toy module_kernel) = Ok tt /\
  trace (blip_vqa_cell toy module_kernel) = [] /\
  globals (final (blip_vqa_cell toy module_kernel)) !! "answer" = None.
Proof.
  destruct (blip_vqa_cell_not_as_main toy module_kernel (VStr "lab_10"))
    as (Houtcome & Htrace & _ & Hanswer).
  - reflexivity.
  - reflexivity.
  - split; [exact Houtcome|]. split; [exact Htrace|].
    rewrite Hanswer. reflexivity.
Defined.


Lemma cells_11_and_21_are_self_contained_witness :
  let bare : State toy := {| globals := ∅; grad_enabled := true |} in
  fails_in_library
    (clip_similarity_cell_on toy_without_cat ["A photo of a cat"; "A photo of a dog"]
       "cat.jpg" (fresh_kernel toy_without_cat)) /\
  fails_in_library (blip_vqa_cell toy_without_cat (fresh_kernel toy_without_cat)) /\
  outcome (blip_vqa_cell toy bare) = Ok tt.
Proof.
  intros bare.
  destruct (cells_11_and_21_are_self_contained toy_without_cat
              ["A photo of a cat"; "A photo of a dog"] "cat.jpg"
              (fresh_kernel toy_without_cat))
    as (Hfirst & Hblip & _); [vm_compute; reflexivity|].
  destruct (cells_11_and_21_are_self_contained toy
              ["A photo of a cat"; "A photo of a dog"] "cat.jpg" bare)
    as (_ & _ & Hbare); [vm_compute; reflexivity|].
  split; [exact Hfirst|]. split; [exact Hblip|].
  apply Hbare. vm_compute. reflexivity.
Defined.

Lemma whole_notebook_run_witness :
  outcome (run_all toy (fresh_kernel toy)) = Ok tt /\
  globals after_blip !! "model" = Some (VObj (L:=toy) "transformers.CLIPModel") /\
  globals after_blip !! "answer" = Some (VStr "orange and white").
Proof.
  destruct (whole_notebook_run toy ["A photo of a cat"; "A photo of a dog"]
              "transformers.CLIPModel" "transformers.CLIPProcessor" "L" "L"
              2%nat 2%nat
              {| data := [[0%R; 0%R]]; grad_fn := Some "MulBackward0" |}
              {| data := [[0%R; 0%R]]; grad_fn := Some "MulBackward0" |}
              "transformers.BlipProcessor" "transformers.BlipForQuestionAnswering"
              "RGB" 1%nat [101; 4589; 1998; 2317; 102]%Z [] "orange and white")
    as (Houtcome & _ & _ & _ & _ & Hmodel & _ & Hanswer & _);
    try reflexivity.
  split; [exact Houtcome|]. split; [exact Hmodel | exact Hanswer].
Defined.

Lemma similarity_cells_depend_on_witness :
  let texts := ["A photo of a cat"; "A photo of a dog"] in
  same_run (clip_similarity_cell_on toy texts "cat.jpg" (fresh_kernel toy))
    (clip_similarity_cell_on toy texts "cat.jpg" after_blip) /\
  same_run (second_clip_similarity_cell_on toy texts "cat_dog.jpg" after_first_clip)
    (second_clip_similarity_cell_on toy texts "cat_dog.jpg" after_blip).
Proof.
  intros texts. split.
  - apply (similarity_cells_depend_on toy texts "cat.jpg" (fresh_kernel toy) after_blip);
      vm_compute; reflexivity.
  - apply (similarity_cells_depend_on toy texts "cat_dog.jpg" after_first_clip after_blip);
      vm_compute; reflexivity.
Defined.

Lemma notebook_depends_on_name_only_witness :
  same_run (run_all toy after_first_clip) (run_all toy (fresh_kernel toy)).
Proof.
  apply notebook_depends_on_name_only; vm_compute; reflexivity.
Defined.
